(** * The MiniMax provider strategy of aider-desk

    A shallow embedding of [src/main/models/providers/minimax.ts]:
    model discovery with its static fallback, the aider environment
    mapping, the construction of the model client, the cost formula and
    the usage report.

    JavaScript strings are sequences of UTF-16 code units, numbers are
    IEEE 754 binary64 values (Rocq's primitive floats), [undefined] is
    [None], and objects used as dictionaries are finite maps. *)

From Stdlib Require Import NArith Ascii String DecimalString PrimFloat.
From stdpp Require Import gmap strings list.
From Equations Require Import Equations.

Open Scope N_scope.

(** ** Strings *)

(** A JavaScript string: its UTF-16 code units. *)
Abbreviation jsstring := (list N).

(** The code units of an ASCII literal of the source. *)
Definition js (s : string) : jsstring :=
  map N_of_ascii (list_ascii_of_string s).

(** [!s] for a value of type [string | undefined]: [undefined] and the
    empty string are falsy, every other string is truthy. *)
Definition str_truthy (o : option jsstring) : bool :=
  match o with
  | Some (_ :: _) => true
  | _ => false
  end.

(** [a || b] where [a : string | undefined] and [b : string]. *)
Definition str_or (a : option jsstring) (b : jsstring) : jsstring :=
  match a with
  | Some (c :: s) => c :: s
  | _ => b
  end.

(** ** Numbers *)

(** Truthiness of a number: [0], [-0] and [NaN] are falsy. *)
Definition num_truthy (x : float) : bool :=
  negb (PrimFloat.is_nan x || PrimFloat.is_zero x).

(** [x || d] where [x : number | undefined]. *)
Definition num_or (x : option float) (d : float) : float :=
  match x with
  | Some v => if num_truthy v then v else d
  | None => d
  end.

(** [x ?? d] is stdpp's [default d x]: only [undefined] is replaced. *)

(** ** Data model *)

(** Modelled from the spec: the type [ModelInfo] of [@common/types] is
    not part of the sources at hand.  The spec describes it as the
    static pricing metadata of a model: cost per input token, per
    output token, per cache-write token and per cache-read token.  It
    has no [id] and no [providerId] field, so spreading it into a
    [Model] leaves those two untouched. *)
Record ModelInfo := {
  info_inputCostPerToken : option float;
  info_outputCostPerToken : option float;
  info_cacheWriteInputTokenCost : option float;
  info_cacheReadInputTokenCost : option float
}.

(** Modelled from the spec: [Model] of [@common/types] is the model
    identifier, the owning provider's identifier and the merged-in
    [ModelInfo]; the fields are those [calculateMiniMaxCost] and
    [toModel] read and write. *)
Record Model := {
  model_id : jsstring;
  model_providerId : jsstring;
  inputCostPerToken : option float;
  outputCostPerToken : option float;
  cacheWriteInputTokenCost : option float;
  cacheReadInputTokenCost : option float
}.

(** Modelled from the spec: the provider-specific configuration of a
    profile, "an object with an optional API key"; [provider_name] is
    the discriminant the type guard [isMiniMaxProvider] looks at. *)
Record LlmProvider := {
  provider_name : jsstring;
  apiKey : option jsstring
}.

(** Modelled from the spec: [ProviderProfile] is an identifier that
    namespaces models, the provider configuration and optional HTTP
    headers. *)
Record ProviderProfile := {
  profile_id : jsstring;
  provider : LlmProvider;
  headers : option (list (jsstring * jsstring))
}.

(** Modelled from the spec: what [getEffectiveEnvironmentVariable]
    answers when the variable resolves, [{value, source}]. *)
Record EnvironmentVariable := {
  value : jsstring;
  source : jsstring
}.

(** [LanguageModelUsage] of the [ai] package, as far as it is read. *)
Record LanguageModelUsage := {
  inputTokens : option float;
  outputTokens : option float;
  cachedInputTokens : option float
}.

(** [type MiniMaxMetadata = { anthropic: {...} }]; the value is cast
    from [unknown], so the [anthropic] member may be missing. *)
Record AnthropicMetadata := {
  cacheCreationInputTokens : option float;
  cacheReadInputTokens : option float
}.

Record MiniMaxMetadata := {
  anthropic : option AnthropicMetadata
}.

(** [task.task.agentTotalCost]. *)
Record TaskData := {
  agentTotalCost : float
}.

Record Task := {
  task : TaskData
}.

Record UsageReportData := {
  report_model : jsstring;
  report_sentTokens : float;
  report_receivedTokens : float;
  report_cacheWriteTokens : float;
  report_cacheReadTokens : float;
  report_messageCost : float;
  report_agentTotalCost : float
}.

Record AiderModelMapping := {
  modelName : jsstring;
  environmentVariables : gmap jsstring jsstring
}.

Record LoadModelsResponse := {
  models : list Model;
  success : bool
}.

(** ** Constants *)

Definition MINIMAX_BASE_URL : jsstring := js "https://api.minimax.io/anthropic".
Definition MINIMAX_MODELS_ENDPOINT : jsstring := MINIMAX_BASE_URL ++ js "/v1/models".
Definition KNOWN_MINIMAX_MODELS : list jsstring :=
  [js "MiniMax-M2"; js "MiniMax-M2-Stable"].

Definition MINIMAX_API_KEY : jsstring := js "MINIMAX_API_KEY".
Definition ANTHROPIC_API_URL : jsstring := js "ANTHROPIC_API_URL".
Definition ANTHROPIC_API_KEY : jsstring := js "ANTHROPIC_API_KEY".

(** ** Cost and usage *)

Section Cost.
Open Scope float_scope.

(** [calculateMiniMaxCost]; the two cache counters are optional
    parameters with default [0]. *)
Definition calculateMiniMaxCost (model : Model) (sentTokens receivedTokens : float)
    (cacheWriteTokens cacheReadTokens : option float) : float :=
  let cacheWriteTokens := default 0 cacheWriteTokens in
  let cacheReadTokens := default 0 cacheReadTokens in
  let inputCostPerToken := default 0 (inputCostPerToken model) in
  let outputCostPerToken := default 0 (outputCostPerToken model) in
  let cacheWriteInputTokenCost :=
    default inputCostPerToken (cacheWriteInputTokenCost model) in
  let cacheReadInputTokenCost := default 0 (cacheReadInputTokenCost model) in
  let inputCost := sentTokens * inputCostPerToken in
  let outputCost := receivedTokens * outputCostPerToken in
  let cacheCreationCost := cacheWriteTokens * cacheWriteInputTokenCost in
  let cacheReadCost := cacheReadTokens * cacheReadInputTokenCost in
  let cacheCost := cacheCreationCost + cacheReadCost in
  inputCost + outputCost + cacheCost.

(** [anthropic?.field] after [const { anthropic } = providerMetadata || {}]. *)
Definition anthropic_field (providerMetadata : option MiniMaxMetadata)
    (field : AnthropicMetadata -> option float) : option float :=
  match providerMetadata with
  | Some m =>
      match anthropic m with
      | Some a => field a
      | None => None
      end
  | None => None
  end.

(** [getMiniMaxUsageReport]. *)
Definition getMiniMaxUsageReport (t : Task) (p : ProviderProfile) (model : Model)
    (usage : LanguageModelUsage) (providerMetadata : option MiniMaxMetadata)
    : UsageReportData :=
  let totalSentTokens := num_or (inputTokens usage) 0 in
  let receivedTokens := num_or (outputTokens usage) 0 in
  let cacheWriteTokens :=
    default 0 (anthropic_field providerMetadata cacheCreationInputTokens) in
  let cacheReadTokens :=
    default (default 0 (cachedInputTokens usage))
            (anthropic_field providerMetadata cacheReadInputTokens) in
  let sentTokens := totalSentTokens - cacheReadTokens in
  let messageCost :=
    calculateMiniMaxCost model sentTokens receivedTokens
      (Some cacheWriteTokens) (Some cacheReadTokens) in
  {| report_model := profile_id p ++ js "/" ++ model_id model;
     report_sentTokens := sentTokens;
     report_receivedTokens := receivedTokens;
     report_cacheWriteTokens := cacheWriteTokens;
     report_cacheReadTokens := cacheReadTokens;
     report_messageCost := messageCost;
     report_agentTotalCost := agentTotalCost (task t) + messageCost |}.
End Cost.

(** ** The aider mapping *)

(** [getMiniMaxAiderMapping]: the cast [provider.provider as
    MiniMaxProvider] checks nothing, the key is read off whatever
    provider the profile holds. *)
Definition getMiniMaxAiderMapping (p : ProviderProfile) (modelId : jsstring)
    : AiderModelMapping :=
  let miniMaxProvider := provider p in
  let envVars : gmap jsstring jsstring := {[ ANTHROPIC_API_URL := MINIMAX_BASE_URL ]} in
  let envVars :=
    match apiKey miniMaxProvider with
    | Some key =>
        if str_truthy (Some key) then <[ ANTHROPIC_API_KEY := key ]> envVars else envVars
    | None => envVars
    end in
  {| modelName := js "anthropic/" ++ modelId;
     environmentVariables := envVars |}.

(** ** Sanitising a failure reason *)

Definition LT : N := 60.   (* '<' *)
Definition GT : N := 62.   (* '>' *)
Definition SPACE : N := 32.

(** The class [\s] of an ECMAScript regular expression, which is also
    what [String.prototype.trim] removes: WhiteSpace and LineTerminator. *)
Definition is_space (c : N) : bool :=
  ((9 <=? c) && (c <=? 13)) || (c =? 32) || (c =? 160) || (c =? 5760)
  || ((8192 <=? c) && (c <=? 8202)) || (c =? 8232) || (c =? 8233)
  || (c =? 8239) || (c =? 8287) || (c =? 12288) || (c =? 65279).

(** What follows the first ['>'] of [s], if there is one: where a
    match of [[^>]*>] ends. *)
Fixpoint after_gt (s : jsstring) : option jsstring :=
  match s with
  | [] => None
  | c :: t => if c =? GT then Some t else after_gt t
  end.

Lemma after_gt_length s rest : after_gt s = Some rest → (length rest < length s)%nat.
Proof.
  revert rest; induction s as [|c t IH]; intros rest; simpl; [done|].
  destruct (c =? GT).
  - intros [= ->]. lia.
  - intros H. apply IH in H. lia.
Qed.

Definition inspect {A} (a : A) : {b | a = b} := exist _ a eq_refl.

(** [reason.replace(/<[^>]*>/g, ' ')]: scanning from the left, a ['<']
    that has a ['>'] somewhere after it starts a match that runs to the
    first such ['>'] and is replaced by one space; scanning resumes
    after the match.  A ['<'] with no ['>'] after it is kept. *)
Equations? strip_tags (s : jsstring) : jsstring by wf (length s) lt :=
  strip_tags [] := [];
  strip_tags (c :: t) with inspect (c =? LT) => {
    | exist _ false _ := c :: strip_tags t;
    | exist _ true _ with inspect (after_gt t) => {
      | exist _ (Some rest) _ := SPACE :: strip_tags rest;
      | exist _ None _ := c :: strip_tags t } }.
Proof.
  all: simpl; try lia.
  match goal with H : after_gt _ = Some _ |- _ => apply after_gt_length in H end. lia.
Qed.

(** [.replace(/\s+/g, ' ')]: every maximal run of whitespace becomes
    one space.  [in_run] says that the previous code unit belonged to
    the run being replaced. *)
Fixpoint collapse_spaces (in_run : bool) (s : jsstring) : jsstring :=
  match s with
  | [] => []
  | c :: t =>
      if is_space c
      then (if in_run then collapse_spaces true t else SPACE :: collapse_spaces true t)
      else c :: collapse_spaces false t
  end.

Fixpoint trim_start (s : jsstring) : jsstring :=
  match s with
  | [] => []
  | c :: t => if is_space c then trim_start t else c :: t
  end.

Fixpoint trim_end (s : jsstring) : jsstring :=
  match s with
  | [] => []
  | c :: t =>
      match trim_end t with
      | [] => if is_space c then [] else [c]
      | r => c :: r
      end
  end.

(** [String.prototype.trim]. *)
Definition trim (s : jsstring) : jsstring := trim_end (trim_start s).

(** [sanitizeReason]. *)
Definition sanitizeReason (reason : jsstring) : jsstring :=
  trim (collapse_spaces false (strip_tags reason)).

(** [parts.join(sep)]. *)
Fixpoint join (sep : jsstring) (parts : list jsstring) : jsstring :=
  match parts with
  | [] => []
  | [p] => p
  | p :: rest => p ++ sep ++ join sep rest
  end.

(** The decimal digits of a non-negative integer, as a template
    literal prints it. *)
Definition number_to_string (n : N) : jsstring :=
  js (DecimalString.NilZero.string_of_uint (N.to_uint n)).

(** ** Effects: requests, log entries and exceptions *)

(** What the module does to the outside, in program order. *)
Inductive Event :=
| EvFetch (url : jsstring) (request_headers : list (jsstring * jsstring))
| EvWarn (message : jsstring)
| EvDebug (message : jsstring).

(** What [JSON.stringify] does with a value: it throws (a cycle, a
    BigInt), returns [undefined] (for [undefined], a function, a
    symbol), or returns text. *)
Inductive Stringified :=
| StringifyThrows
| StringifyUndefined
| StringifyText (s : jsstring).

(** A thrown value, as far as a [catch] clause of this module can tell
    values apart: a string, an [Error] with its message, or anything
    else, known by what [JSON.stringify] and [String] make of it
    ([String] raises a [TypeError] on an object without a usable
    [toString]). *)
Inductive Thrown :=
| ThrownString (s : jsstring)
| ThrownError (message : jsstring)
| ThrownOther (stringify : Stringified) (to_string : option jsstring).

Inductive Completion (A : Type) :=
| Return (a : A)
| Throw (e : Thrown).
Arguments Return {A} a.
Arguments Throw {A} e.

(** A computation: the events it emitted and how it completed. *)
Definition M (A : Type) : Type := list Event * Completion A.

#[global] Instance M_ret : MRet M := λ A a, ([], Return a).

#[global] Instance M_bind : MBind M := λ A B f m,
  match m.2 with
  | Return a => (m.1 ++ (f a).1, (f a).2)
  | Throw e => (m.1, Throw e)
  end.

Definition throw {A} (e : Thrown) : M A := ([], Throw e).

(** [try { body } catch (error) { handler }]. *)
Definition try_catch {A} (body : M A) (handler : Thrown → M A) : M A :=
  match body.2 with
  | Return a => body
  | Throw e => (body.1 ++ (handler e).1, (handler e).2)
  end.

(** [await promise]: a rejection is thrown. *)
Definition await {A} (settled : Completion A) : M A := ([], settled).

Definition logger_warn (message : jsstring) : M unit := ([EvWarn message], Return ()).
Definition logger_debug (message : jsstring) : M unit := ([EvDebug message], Return ()).

(** ** The HTTP response *)

(** A parsed JSON document; an object lists its members in the order
    of the text. *)
#[warnings="-register-all"]
Inductive Json :=
| JNull
| JBool (b : bool)
| JNumber (x : float)
| JString (s : jsstring)
| JArray (items : list Json)
| JObject (members : list (jsstring * Json)).

(** The value of a member of a parsed object; [JSON.parse] lets the
    last of several members with one name win. *)
Fixpoint member (key : jsstring) (members : list (jsstring * Json)) : option Json :=
  match members with
  | [] => None
  | (k, v) :: rest =>
      match member key rest with
      | Some later => Some later
      | None => if decide (k = key) then Some v else None
      end
  end.

(** [v?.key] on a parsed JSON value: [null] short-circuits to
    [undefined], and strings, numbers, booleans and arrays have none
    of the properties this module asks for ([data], [id], [model],
    [name]); nor has [Object.prototype]. *)
Definition prop (v : Json) (key : jsstring) : option Json :=
  match v with
  | JObject members => member key members
  | _ => None
  end.

(** [a ?? b]: [undefined] and [null] give way to [b]. *)
Definition coalesce (a b : option Json) : option Json :=
  match a with
  | None | Some JNull => b
  | Some _ => a
  end.

(** The [Response] of [fetch], as far as it is read: [text()] and
    [json()] are promises that resolve or reject. *)
Record Response := {
  status : N;
  statusText : jsstring;
  text : Completion jsstring;
  json : Completion Json
}.

(** [response.ok]: the status is in the range 200-299 (Fetch standard). *)
Definition ok (r : Response) : bool := (200 <=? status r) && (status r <=? 299).

Inductive FetchOutcome :=
| Resolves (r : Response)
| Rejects (e : Thrown).

(** Modelled from the spec: the model handle of the [ai] SDK is opaque;
    it is known by the settings [createAnthropic] was given and the
    model identifier it was applied to. *)
Record LanguageModelV2 := {
  llm_apiKey : jsstring;
  llm_baseURL : jsstring;
  llm_headers : option (list (jsstring * jsstring));
  llm_modelId : jsstring
}.

(** ** Model discovery and client construction *)

(** The callback of [remoteModels.map]: the identifier of one entry of
    the list, or [undefined]. *)
Definition remote_model_id (model : Json) : option jsstring :=
  match model with
  | JString s => Some s
  | JObject _ | JArray _ =>
      let candidate :=
        coalesce (coalesce (prop model (js "id")) (prop model (js "model")))
                 (prop model (js "name")) in
      match candidate with
      | Some (JString s) => Some s
      | _ => None
      end
  | _ => None
  end.

(** [Array.isArray(data?.data) ? data.data : []]. *)
Definition remote_models (data : Json) : list Json :=
  match prop data (js "data") with
  | Some (JArray items) => items
  | _ => []
  end.

(** [.map(...).filter(id => typeof id === 'string' && id.length > 0)]. *)
Definition model_ids (remoteModels : list Json) : list jsstring :=
  omap (λ modelId, if str_truthy modelId then modelId else None)
       (map remote_model_id remoteModels).

(** The message of the [TypeError] raised by [reason.replace] when
    [reason] is [undefined]. *)
Definition REPLACE_OF_UNDEFINED : jsstring :=
  js "Cannot read properties of undefined (reading 'replace')".

Definition NOT_PRIMITIVE : jsstring := js "Cannot convert object to primitive value".

(** The reason the [catch] clause of [loadMiniMaxModels] works out:
    the string itself, the message of an [Error], and otherwise
    [JSON.stringify(error)], which may be [undefined], or
    [String(error)] when that throws. *)
Definition catch_reason (error : Thrown) : M (option jsstring) :=
  match error with
  | ThrownString s => mret (Some s)
  | ThrownError message => mret (Some message)
  | ThrownOther (StringifyText s) _ => mret (Some s)
  | ThrownOther StringifyUndefined _ => mret None
  | ThrownOther StringifyThrows (Some s) => mret (Some s)
  | ThrownOther StringifyThrows None => throw (ThrownError NOT_PRIMITIVE)
  end.

(** ** What a sanitised reason looks like *)

Definition has_gt (s : jsstring) : bool := existsb (λ c, c =? GT) s.

(** The regular expression [/<[^>]*>/] matches somewhere in [s]: some
    ['<'] has a ['>'] after it. *)
Fixpoint has_tag (s : jsstring) : bool :=
  match s with
  | [] => false
  | c :: t => ((c =? LT) && has_gt t) || has_tag t
  end.

(** No ['<'] of [s] is followed, at any distance, by a ['>']. *)
Definition tag_free (s : jsstring) : Prop :=
  ∀ l m r, s ≠ l ++ LT :: m ++ GT :: r.

(** Every whitespace code unit of [s] is a U+0020 that does not follow
    another whitespace code unit; [after_space] tells whether the code
    unit before [s] was one. *)
Fixpoint spaced (after_space : bool) (s : jsstring) : bool :=
  match s with
  | [] => true
  | c :: t =>
      if is_space c
      then (c =? SPACE) && negb after_space && spaced true t
      else spaced false t
  end.

Definition ends_clean (s : jsstring) : bool :=
  match last s with
  | Some c => negb (is_space c)
  | None => true
  end.

(** Whitespace is collapsed and trimmed, as a check that runs. *)
Definition collapsed (s : jsstring) : bool := spaced true s && ends_clean s.

(** The same, said about the positions of [s]: the only whitespace is
    U+0020, never two in a row, none at either end. *)
Record whitespace_collapsed (s : jsstring) : Prop := {
  only_spaces : ∀ c, c ∈ s → is_space c = true → c = SPACE;
  no_runs : ∀ l a b r, s = l ++ a :: b :: r → is_space a = true → is_space b = false;
  no_leading : ∀ c r, s = c :: r → is_space c = false;
  no_trailing : ∀ l c, s = l ++ [c] → is_space c = false
}.

Section Provider.
(** The collaborators of the module: the settings store, the type
    guard of [@common/agent], the resolution of environment
    variables of [@/utils] (name, settings, optional project
    directory) and the network, which answers a request to a URL
    with given headers. *)
Variable SettingsData : Type.
Variable isMiniMaxProvider : LlmProvider → bool.
Variable getEffectiveEnvironmentVariable :
  jsstring → SettingsData → option jsstring → option EnvironmentVariable.
Variable network : jsstring → list (jsstring * jsstring) → FetchOutcome.

Definition fetch (url : jsstring) (request_headers : list (jsstring * jsstring))
    : M Response :=
  ([EvFetch url request_headers],
   match network url request_headers with
   | Resolves r => Return r
   | Rejects e => Throw e
   end).

(** [toModel]: the spread of the metadata comes last, and the
    metadata has neither an [id] nor a [providerId].  An identifier
    that only names a member of [Object.prototype] finds a value
    without own enumerable properties, and the spread adds nothing,
    as for an identifier the catalogue does not have. *)
Definition toModel (profile : ProviderProfile) (modelsInfo : gmap jsstring ModelInfo)
    (modelId : jsstring) : Model :=
  let info := modelsInfo !! modelId in
  {| model_id := modelId;
     model_providerId := profile_id profile;
     inputCostPerToken := info ≫= info_inputCostPerToken;
     outputCostPerToken := info ≫= info_outputCostPerToken;
     cacheWriteInputTokenCost := info ≫= info_cacheWriteInputTokenCost;
     cacheReadInputTokenCost := info ≫= info_cacheReadInputTokenCost |}.

Definition warning_message (sanitizedReason : jsstring) : jsstring :=
  js "MiniMax models API unavailable (" ++ sanitizedReason
  ++ js "). Falling back to static MiniMax model list: "
  ++ join (js ", ") KNOWN_MINIMAX_MODELS.

Definition fallbackToKnownModels (profile : ProviderProfile)
    (modelsInfo : gmap jsstring ModelInfo) (reason : jsstring) : M LoadModelsResponse :=
  let sanitizedReason := str_or (Some (sanitizeReason reason)) (js "Unknown error") in
  logger_warn (warning_message sanitizedReason);;
  let models := map (toModel profile modelsInfo) KNOWN_MINIMAX_MODELS in
  mret {| models := models; success := true |}.

Definition request_headers_of (apiKey : jsstring) (apiKeyEnv : option EnvironmentVariable)
    : list (jsstring * jsstring) :=
  [(js "x-api-key", str_or (Some apiKey) (str_or (value <$> apiKeyEnv) []));
   (js "anthropic-version", js "2023-06-01")].

(** The [catch] clause of [loadMiniMaxModels]: [fallbackToKnownModels]
    calls [reason.replace], a [TypeError] when [reason] is [undefined]. *)
Definition catch_clause (profile : ProviderProfile) (modelsInfo : gmap jsstring ModelInfo)
    (error : Thrown) : M LoadModelsResponse :=
  reason ← catch_reason error;
  match reason with
  | Some reason => fallbackToKnownModels profile modelsInfo reason
  | None => throw (ThrownError REPLACE_OF_UNDEFINED)
  end.

Definition loadMiniMaxModels (profile : ProviderProfile)
    (modelsInfo : gmap jsstring ModelInfo) (settings : SettingsData)
    : M LoadModelsResponse :=
  if negb (isMiniMaxProvider (provider profile))
  then mret {| models := []; success := false |}
  else
    let provider := provider profile in
    let apiKey := str_or (apiKey provider) [] in
    let apiKeyEnv := getEffectiveEnvironmentVariable MINIMAX_API_KEY settings None in
    if negb (str_truthy (Some apiKey)) && negb (str_truthy (value <$> apiKeyEnv))
    then mret {| models := []; success := false |}
    else
      try_catch
        (response ← fetch MINIMAX_MODELS_ENDPOINT (request_headers_of apiKey apiKeyEnv);
         if negb (ok response)
         then
           let errorText :=
             match text response with
             | Return body => body
             | Throw _ => []
             end in
           let reasonParts :=
             [number_to_string (status response) ++ js " " ++ statusText response]
             ++ (if str_truthy (Some errorText) then [errorText] else []) in
           fallbackToKnownModels profile modelsInfo (join (js " - ") reasonParts)
         else
           data ← await (json response);
           let modelIds := model_ids (remote_models data) in
           if (length modelIds =? 0)%nat
           then fallbackToKnownModels profile modelsInfo
                  (js "Empty or unsupported MiniMax models response payload")
           else
             let models := map (toModel profile modelsInfo) modelIds in
             mret {| models := models; success := true |})
        (catch_clause profile modelsInfo).

Definition hasMiniMaxEnvVars (settings : SettingsData) : bool :=
  str_truthy (value <$> getEffectiveEnvironmentVariable MINIMAX_API_KEY settings None).

Definition KEY_REQUIRED : jsstring :=
  js "MiniMax API key is required in Providers settings or Aider environment variables (MINIMAX_API_KEY)".

Definition createMiniMaxLlm (profile : ProviderProfile) (model : Model)
    (settings : SettingsData) (projectDir : jsstring) : M LanguageModelV2 :=
  let provider := provider profile in
  let apiKey := apiKey provider in
  apiKey ←
    (if negb (str_truthy apiKey)
     then
       match getEffectiveEnvironmentVariable MINIMAX_API_KEY settings (Some projectDir) with
       | Some effectiveVar =>
           logger_debug (js "Loaded MINIMAX_API_KEY from " ++ source effectiveVar);;
           mret (Some (value effectiveVar))
       | None => mret apiKey
       end
     else mret apiKey);
  match apiKey with
  | Some (c :: key) =>
      mret {| llm_apiKey := c :: key;
              llm_baseURL := MINIMAX_BASE_URL;
              llm_headers := headers profile;
              llm_modelId := model_id model |}
  | _ => throw (ThrownError KEY_REQUIRED)
  end.


(** ** The earlier revision of the discovery *)

(** The earlier revision of [loadMiniMaxModels] has no static
    fallback and does not look at the shape of the entries.  Two more
    collaborators come in: the property key JavaScript makes of a value
    used as an index ([modelsInfo[m.id]]; for a string, the string
    itself), and what [JSON.stringify] throws when it throws. *)
Variable property_key : option Json → jsstring.
Variable stringify_failure : Thrown.

(** A model as that revision builds it: [m.id] is taken as it comes,
    a string or not, there or not. *)
Record UncheckedModel := {
  unchecked_id : option Json;
  unchecked_providerId : jsstring;
  unchecked_inputCostPerToken : option float;
  unchecked_outputCostPerToken : option float;
  unchecked_cacheWriteInputTokenCost : option float;
  unchecked_cacheReadInputTokenCost : option float
}.

(** [LoadModelsResponse] with its optional [error]. *)
Record StrictLoadModelsResponse := {
  strict_models : list UncheckedModel;
  strict_success : bool;
  strict_error : option jsstring
}.

Definition ID_OF_NULL : jsstring := js "Cannot read properties of null (reading 'id')".
Definition DATA_OF_NULL : jsstring := js "Cannot read properties of null (reading 'data')".
Definition MAP_NOT_A_FUNCTION : jsstring := js "data.data?.map is not a function".

(** The callback of [data.data?.map]: [m.id] of [null] is a
    [TypeError]; any other entry gives a model. *)
Definition strict_model (profile : ProviderProfile) (modelsInfo : gmap jsstring ModelInfo)
    (m : Json) : M UncheckedModel :=
  match m with
  | JNull => throw (ThrownError ID_OF_NULL)
  | _ =>
      let info := modelsInfo !! property_key (prop m (js "id")) in
      mret {| unchecked_id := prop m (js "id");
              unchecked_providerId := profile_id profile;
              unchecked_inputCostPerToken := info ≫= info_inputCostPerToken;
              unchecked_outputCostPerToken := info ≫= info_outputCostPerToken;
              unchecked_cacheWriteInputTokenCost := info ≫= info_cacheWriteInputTokenCost;
              unchecked_cacheReadInputTokenCost := info ≫= info_cacheReadInputTokenCost |}
  end.

(** [data.data?.map(...) || []]: [data.data] of [null] is a
    [TypeError]; a missing or [null] list gives no models; an array is
    mapped; anything else has no [map] to call. *)
Definition strict_models_of (profile : ProviderProfile) (modelsInfo : gmap jsstring ModelInfo)
    (data : Json) : M (list UncheckedModel) :=
  match data with
  | JNull => throw (ThrownError DATA_OF_NULL)
  | _ =>
      match prop data (js "data") with
      | None | Some JNull => mret []
      | Some (JArray items) => mapM (strict_model profile modelsInfo) items
      | Some _ => throw (ThrownError MAP_NOT_A_FUNCTION)
      end
  end.

(** The [error] of the [catch] clause: the string, the message of an
    [Error], else [JSON.stringify(error)], unguarded. *)
Definition strict_error_text (error : Thrown) : M (option jsstring) :=
  match error with
  | ThrownString s => mret (Some s)
  | ThrownError message => mret (Some message)
  | ThrownOther (StringifyText s) _ => mret (Some s)
  | ThrownOther StringifyUndefined _ => mret None
  | ThrownOther StringifyThrows _ => throw stringify_failure
  end.

Definition loadMiniMaxModelsStrict (profile : ProviderProfile)
    (modelsInfo : gmap jsstring ModelInfo) (settings : SettingsData)
    : M StrictLoadModelsResponse :=
  if negb (isMiniMaxProvider (provider profile))
  then mret {| strict_models := []; strict_success := false; strict_error := None |}
  else
    let provider := provider profile in
    let apiKey := str_or (apiKey provider) [] in
    let apiKeyEnv := getEffectiveEnvironmentVariable MINIMAX_API_KEY settings None in
    if negb (str_truthy (Some apiKey)) && negb (str_truthy (value <$> apiKeyEnv))
    then mret {| strict_models := []; strict_success := false; strict_error := None |}
    else
      try_catch
        (response ← fetch MINIMAX_MODELS_ENDPOINT (request_headers_of apiKey apiKeyEnv);
         if negb (ok response)
         then
           body ← await (text response);
           mret {| strict_models := [];
                   strict_success := false;
                   strict_error :=
                     Some (js "MiniMax models API response failed: "
                           ++ number_to_string (status response) ++ js " "
                           ++ statusText response ++ js " " ++ body) |}
         else
           data ← await (json response);
           models ← strict_models_of profile modelsInfo data;
           mret {| strict_models := models; strict_success := true; strict_error := None |})
        (λ error,
           text ← strict_error_text error;
           mret {| strict_models := []; strict_success := false; strict_error := text |}).

(** A model of the current revision, seen as one of the earlier. *)
Definition as_unchecked (model : Model) : UncheckedModel :=
  {| unchecked_id := Some (JString (model_id model));
     unchecked_providerId := model_providerId model;
     unchecked_inputCostPerToken := inputCostPerToken model;
     unchecked_outputCostPerToken := outputCostPerToken model;
     unchecked_cacheWriteInputTokenCost := cacheWriteInputTokenCost model;
     unchecked_cacheReadInputTokenCost := cacheReadInputTokenCost model |}.

(** An entry of the shape the endpoint documents: an object with a
    string [id] that is not empty. *)
Definition documented_entry (entry : Json) : Prop :=
  ∃ members c s, entry = JObject members ∧ member (js "id") members = Some (JString (c :: s)).

(** ** Vocabulary of the statements *)

(** A key was found: the profile carries a non-empty one, or the
    environment variable resolves to a non-empty value. *)
Definition has_key (profile : ProviderProfile) (settings : SettingsData) : bool :=
  str_truthy (apiKey (provider profile)) || hasMiniMaxEnvVars settings.

(** The request [loadMiniMaxModels] sends for a profile. *)
Definition models_request_headers (profile : ProviderProfile) (settings : SettingsData)
    : list (jsstring * jsstring) :=
  request_headers_of (str_or (apiKey (provider profile)) [])
    (getEffectiveEnvironmentVariable MINIMAX_API_KEY settings None).

(** The reason a [catch] clause gets out of a thrown value, when it
    gets one: the string itself, the message of an [Error], the JSON
    text, or what [String] makes of the value when [JSON.stringify]
    throws. *)
Definition thrown_reason (error : Thrown) : option jsstring :=
  match error with
  | ThrownString s => Some s
  | ThrownError message => Some message
  | ThrownOther (StringifyText s) _ => Some s
  | ThrownOther StringifyThrows (Some s) => Some s
  | ThrownOther _ _ => None
  end.

(** The reason given for a response that is not [ok]: status and
    status text, then the body when it could be read and is not empty. *)
Definition status_reason (r : Response) : jsstring :=
  let line := number_to_string (status r) ++ js " " ++ statusText r in
  match text r with
  | Return (c :: body) => line ++ js " - " ++ c :: body
  | _ => line
  end.

(** The ways the HTTP interaction fails, each with the reason handed
    to the fallback: a response outside 200-299, a rejected [fetch], a
    body that does not parse, a payload without a usable identifier. *)
Inductive discovery_failure : FetchOutcome → jsstring → Prop :=
| failure_status r :
    ok r = false → discovery_failure (Resolves r) (status_reason r)
| failure_network e reason :
    thrown_reason e = Some reason → discovery_failure (Rejects e) reason
| failure_parse r e reason :
    ok r = true → json r = Throw e → thrown_reason e = Some reason →
    discovery_failure (Resolves r) reason
| failure_empty r data :
    ok r = true → json r = Return data → model_ids (remote_models data) = [] →
    discovery_failure (Resolves r)
      (js "Empty or unsupported MiniMax models response payload").

(** What the fallback answers and logs. *)
Definition fallback_response (profile : ProviderProfile)
    (modelsInfo : gmap jsstring ModelInfo) : LoadModelsResponse :=
  {| models := map (toModel profile modelsInfo) KNOWN_MINIMAX_MODELS; success := true |}.

Definition logged_reason (reason : jsstring) : jsstring :=
  str_or (Some (sanitizeReason reason)) (js "Unknown error").


(** A member of a parsed object that is there and is not [null]. *)
Definition present (v : option Json) : Prop :=
  match v with
  | None | Some JNull => False
  | Some _ => True
  end.

(** The identifier an entry of the model list yields: a bare string
    is its own identifier; an object yields its [id], or else its
    [model], or else its [name], a later field being looked at only
    when the earlier ones are missing or [null], and the field that
    is looked at has to be a string. *)
Inductive entry_identifier : Json → jsstring → Prop :=
| identifier_string s :
    entry_identifier (JString s) s
| identifier_id members s :
    member (js "id") members = Some (JString s) →
    entry_identifier (JObject members) s
| identifier_model members s :
    ¬ present (member (js "id") members) →
    member (js "model") members = Some (JString s) →
    entry_identifier (JObject members) s
| identifier_name members s :
    ¬ present (member (js "id") members) →
    ¬ present (member (js "model") members) →
    member (js "name") members = Some (JString s) →
    entry_identifier (JObject members) s.

(** The identifiers that survive, in the order of the entries: an
    entry is dropped when it yields no identifier or an empty one. *)
Inductive surviving_identifiers : list Json → list jsstring → Prop :=
| surviving_nil :
    surviving_identifiers [] []
| surviving_keep entry s entries ids :
    entry_identifier entry s → s ≠ [] →
    surviving_identifiers entries ids →
    surviving_identifiers (entry :: entries) (s :: ids)
| surviving_drop entry entries ids :
    (∀ s, entry_identifier entry s → s = []) →
    surviving_identifiers entries ids →
    surviving_identifiers (entry :: entries) ids.

(** The identifier of an entry as the specification words it: a bare
    string, or an object with an [id], [model] or [name] string field,
    tried in that order. *)
Definition spec_model_id (entry : Json) : option jsstring :=
  match entry with
  | JString s => Some s
  | JObject members =>
      match member (js "id") members with
      | Some (JString s) => Some s
      | _ =>
          match member (js "model") members with
          | Some (JString s) => Some s
          | _ =>
              match member (js "name") members with
              | Some (JString s) => Some s
              | _ => None
              end
          end
      end
  | _ => None
  end.

Definition spec_model_ids (entries : list Json) : list jsstring :=
  omap (λ modelId, if str_truthy modelId then modelId else None)
       (map spec_model_id entries).

(** The rates of the cost formula, as the specification words them. *)
Definition inputRate (model : Model) : float :=
  match inputCostPerToken model with Some rate => rate | None => 0%float end.

Definition outputRate (model : Model) : float :=
  match outputCostPerToken model with Some rate => rate | None => 0%float end.

Definition cacheWriteRate (model : Model) : float :=
  match cacheWriteInputTokenCost model with Some rate => rate | None => inputRate model end.

Definition cacheReadRate (model : Model) : float :=
  match cacheReadInputTokenCost model with Some rate => rate | None => 0%float end.

(** The cache-read counter of the provider metadata, when it has one. *)
Definition metadata_cacheRead (providerMetadata : option MiniMaxMetadata) : option float :=
  match providerMetadata with
  | Some {| anthropic := Some a |} => cacheReadInputTokens a
  | _ => None
  end.

(** A profile with its explicit key replaced. *)
Definition with_apiKey (profile : ProviderProfile) (key : option jsstring) : ProviderProfile :=
  {| profile_id := profile_id profile;
     provider := {| provider_name := provider_name (provider profile); apiKey := key |};
     headers := headers profile |}.

(** The client [createMiniMaxLlm] builds around a key. *)
Definition client_for (profile : ProviderProfile) (model : Model) (key : jsstring)
    : LanguageModelV2 :=
  {| llm_apiKey := key;
     llm_baseURL := MINIMAX_BASE_URL;
     llm_headers := headers profile;
     llm_modelId := model_id model |}.




(** ** What the sanitiser makes of a reason *)

(** A reason with its tags taken out, said without the scan: reading
    from the left, a ['<'] with a ['>'] somewhere after it opens a tag
    that runs to the first such ['>'] and leaves one space; a ['<']
    with no ['>'] after it, and every other code unit, stays. *)
Inductive untagged : jsstring → jsstring → Prop :=
| untagged_end :
    untagged [] []
| untagged_tag inside rest out :
    GT ∉ inside →
    untagged rest out →
    untagged (LT :: inside ++ GT :: rest) (SPACE :: out)
| untagged_unclosed rest out :
    GT ∉ rest →
    untagged rest out →
    untagged (LT :: rest) (LT :: out)
| untagged_unit c rest out :
    c ≠ LT →
    untagged rest out →
    untagged (c :: rest) (c :: out).

(** [s] starts inside a word. *)
Definition starts_word (s : jsstring) : bool :=
  match s with
  | c :: _ => negb (is_space c)
  | [] => false
  end.

(** The words of a text: its maximal runs of code units that are not
    whitespace, in order. *)
Fixpoint words (s : jsstring) : list jsstring :=
  match s with
  | [] => []
  | c :: t =>
      if is_space c then words t
      else if starts_word t
           then match words t with
                | w :: rest => (c :: w) :: rest
                | [] => [[c]]
                end
           else [c] :: words t
  end.

(** The reason as it is logged, said from the reason alone: the words
    of the untagged text with one space between them, or
    ["Unknown error"] when there is no word. *)
Definition reason_shown (text : jsstring) : jsstring :=
  match words text with
  | [] => js "Unknown error"
  | found => join [SPACE] found
  end.

(** The thrown values a [catch] clause of this module meets: every
    string and every [Error] ([fetch] rejects with a [TypeError],
    [json()] with a [SyntaxError] or a [TypeError]), every other value
    of which [JSON.stringify] makes text, and every value that
    [String] prints where [JSON.stringify] throws. *)
Inductive catchable : Thrown → Prop :=
| catchable_string s :
    catchable (ThrownString s)
| catchable_error message :
    catchable (ThrownError message)
| catchable_json s to_string :
    catchable (ThrownOther (StringifyText s) to_string)
| catchable_printed s :
    catchable (ThrownOther StringifyThrows (Some s)).

(** The outcomes of the HTTP interaction: [fetch] rejects, the
    response is outside 200-299, the body does not parse, or the body
    parses (into a payload with or without usable identifiers); what
    [fetch] or [json()] rejects with is [catchable]. *)
Inductive http_outcome : FetchOutcome → Prop :=
| outcome_rejected e :
    catchable e → http_outcome (Rejects e)
| outcome_status r :
    ok r = false → http_outcome (Resolves r)
| outcome_unparsed r e :
    ok r = true → json r = Throw e → catchable e → http_outcome (Resolves r)
| outcome_parsed r data :
    ok r = true → json r = Return data → http_outcome (Resolves r).

(** ** The key field of the settings form *)

(** [MiniMaxParameters], [const apiKey = provider.apiKey || '']: what
    the password input shows. *)
Definition input_value (provider : LlmProvider) : jsstring :=
  str_or (apiKey provider) [].

(** [handleApiKeyChange]: the provider handed to [onChange] when the
    input changes to [target_value], [{ ...provider, apiKey:
    e.target.value }]. *)
Definition handleApiKeyChange (provider : LlmProvider) (target_value : jsstring)
    : LlmProvider :=
  {| provider_name := provider_name provider; apiKey := Some target_value |}.

(** A call [t(key, params)] of the translation function. *)
Inductive Translation :=
| Translate (key : jsstring) (params : list (jsstring * jsstring)).

(** The placeholder of the input: it names the source of the
    environment variable when there is one, else the variable to set. *)
Definition placeholder (minimaxApiKeyEnv : option EnvironmentVariable) : Translation :=
  match minimaxApiKeyEnv with
  | Some effectiveVar =>
      Translate (js "settings.agent.envVarFoundPlaceholder")
        [(js "source", source effectiveVar)]
  | None =>
      Translate (js "settings.agent.envVarPlaceholder")
        [(js "envVar", js "MINIMAX_API_KEY")]
  end.

(** The profile once the host has stored the provider the form
    handed to [onChange]. *)
Definition edit_key (profile : ProviderProfile) (target_value : jsstring) : ProviderProfile :=
  {| profile_id := profile_id profile;
     provider := handleApiKeyChange (provider profile) target_value;
     headers := headers profile |}.

(** ** Sample inputs *)

(** A type guard that goes by the provider's name. *)
Definition named_minimax (p : LlmProvider) : bool :=
  bool_decide (provider_name p = js "minimax").

(** An environment in which [MINIMAX_API_KEY] is not set. *)
Definition empty_environment (name : jsstring) (settings : unit)
    (projectDir : option jsstring) : option EnvironmentVariable := None.

(** An environment in which a project's [.env] file sets the key. *)
Definition project_environment (name : jsstring) (settings : unit)
    (projectDir : option jsstring) : option EnvironmentVariable :=
  match projectDir with
  | Some dir =>
      if bool_decide (name = MINIMAX_API_KEY)
      then Some {| value := js "env-key"; source := dir ++ js "/.env" |}
      else None
  | None => None
  end.

Definition keyed_profile : ProviderProfile :=
  {| profile_id := js "mm";
     provider := {| provider_name := js "minimax"; apiKey := Some (js "sk-test") |};
     headers := None |}.

Definition keyless_profile : ProviderProfile := with_apiKey keyed_profile None.

Definition sample_model : Model :=
  {| model_id := js "MiniMax-M2";
     model_providerId := js "mm";
     inputCostPerToken := Some 0.5%float;
     outputCostPerToken := Some 2%float;
     cacheWriteInputTokenCost := None;
     cacheReadInputTokenCost := None |}.

(** A 500 with an HTML error page. *)
Definition server_error : Response :=
  {| status := 500;
     statusText := js "Internal Server Error";
     text := Return (js "<html><body><h1>Bad   gateway</h1></body></html>");
     json := Throw (ThrownError (js "Unexpected token < in JSON at position 0")) |}.

Definition json_response (data : Json) : Response :=
  {| status := 200; statusText := js "OK"; text := Return []; json := Return data |}.

(** The entries of [{"data":[{"id":"foo"}, "bar", {"model":"baz"}, {"nope":1}]}]. *)
Definition mixed_entries : list Json :=
  [JObject [(js "id", JString (js "foo"))];
   JString (js "bar");
   JObject [(js "model", JString (js "baz"))];
   JObject [(js "nope", JNumber 1)]].

(** [{"id": 1, "model": "baz"}]: a numeric [id] beside a [model] string. *)
Definition numeric_id_entry : Json :=
  JObject [(js "id", JNumber 1); (js "model", JString (js "baz"))].

Definition data_body (entries : list Json) : Json :=
  JObject [(js "data", JArray entries)].

(** A [fetch] that rejects with [undefined]: [JSON.stringify(undefined)]
    is [undefined] and [String(undefined)] is ["undefined"]. *)
Definition rejects_with_undefined : FetchOutcome :=
  Rejects (ThrownOther StringifyUndefined (Some (js "undefined"))).

(** A [fetch] that cannot reach the host: a [TypeError]. *)
Definition fetch_failed : FetchOutcome :=
  Rejects (ThrownError (js "fetch failed")).

(** A 200 whose body is a page, not JSON: [json()] rejects with a
    [SyntaxError]. *)
Definition html_page : Response :=
  {| status := 200;
     statusText := js "OK";
     text := Return (js "<html>maintenance</html>");
     json := Throw (ThrownError (js "Unexpected token < in JSON at position 0")) |}.


(** The code units of a reason that are not whitespace, in order. *)
Definition visible (s : jsstring) : jsstring :=
  List.filter (λ c, negb (is_space c)) s.


(** The key a discovery request carries: the profile's when it is not
    empty, else the value of the environment variable. *)
Definition discovery_key (profile : ProviderProfile) (settings : SettingsData) : jsstring :=
  match apiKey (provider profile) with
  | Some (c :: key) => c :: key
  | _ =>
      match getEffectiveEnvironmentVariable MINIMAX_API_KEY settings None with
      | Some effectiveVar => value effectiveVar
      | None => []
      end
  end.

(** The one request of a discovery. *)
Definition discovery_request (profile : ProviderProfile) (settings : SettingsData) : Event :=
  EvFetch MINIMAX_MODELS_ENDPOINT
    [(js "x-api-key", discovery_key profile settings);
     (js "anthropic-version", js "2023-06-01")].

(** An ASCII digit. *)
Definition is_digit (c : N) : bool := (48 <=? c) && (c <=? 57).


(** The property key of an [id] in the samples: the string itself;
    [undefined], [null] and booleans print as their names.  (Numbers,
    arrays and objects do not occur as [id] in the samples.) *)
Definition sample_property_key (v : option Json) : jsstring :=
  match v with
  | Some (JString s) => s
  | Some JNull => js "null"
  | Some (JBool true) => js "true"
  | Some (JBool false) => js "false"
  | _ => js "undefined"
  end.

Definition sample_stringify_failure : Thrown :=
  ThrownError (js "Converting circular structure to JSON").

(** An environment in which [MINIMAX_API_KEY] is set for every scope. *)
Definition global_environment (name : jsstring) (settings : unit)
    (projectDir : option jsstring) : option EnvironmentVariable :=
  if bool_decide (name = MINIMAX_API_KEY)
  then Some {| value := js "env-key"; source := js "environment" |}
  else None.

(** The entries of [{"data":[{"id":"MiniMax-M2"},{"id":"MiniMax-M2-Stable","type":"model"}]}]. *)
Definition documented_entries : list Json :=
  [JObject [(js "id", JString (js "MiniMax-M2"))];
   JObject [(js "id", JString (js "MiniMax-M2-Stable")); (js "type", JString (js "model"))]].

(** A catalogue that knows one of the two models. *)
Definition sample_catalogue : gmap jsstring ModelInfo :=
  {[ js "MiniMax-M2" :=
       {| info_inputCostPerToken := Some 0.5%float;
          info_outputCostPerToken := Some 2%float;
          info_cacheWriteInputTokenCost := None;
          info_cacheReadInputTokenCost := Some 0.125%float |} ]}.

(** ** Proofs about the sanitiser *)

Lemma after_gt_Some s rest : after_gt s = Some rest → has_gt s = true.
Proof.
  revert rest; induction s as [|c t IH]; intros rest; cbn [after_gt has_gt existsb]; [done|].
  destruct (c =? GT); [done|]. intros H. exact (IH _ H).
Qed.

Lemma after_gt_None s : after_gt s = None → has_gt s = false.
Proof.
  induction s as [|c t IH]; cbn [after_gt has_gt existsb]; [done|].
  destruct (c =? GT); [done|]. exact IH.
Qed.

Lemma has_gt_cons c t : has_gt (c :: t) = (c =? GT) || has_gt t.
Proof. reflexivity. Qed.

Lemma has_gt_strip_tags s : has_gt (strip_tags s) = true → has_gt s = true.
Proof.
  funelim (strip_tags s); simp strip_tags; rewrite ?has_gt_cons.
  - destruct (c =? GT); [done|]. assumption.
  - intros _. rewrite (after_gt_Some _ _ e0). apply orb_true_r.
  - destruct (c =? GT); [done|]. assumption.
Qed.

Lemma has_tag_strip_tags s : has_tag (strip_tags s) = false.
Proof.
  funelim (strip_tags s); simp strip_tags; cbn [has_tag].
  - reflexivity.
  - rewrite e. assumption.
  - assumption.
  - rewrite H. pose proof (after_gt_None _ e0) as Hnone.
    destruct (has_gt (strip_tags t)) eqn:E.
    + apply has_gt_strip_tags in E. congruence.
    + by rewrite andb_false_r.
Qed.

Lemma is_space_not_bracket c : is_space c = true → (c =? LT) = false ∧ (c =? GT) = false.
Proof.
  intros H. split; apply N.eqb_neq; intros ->; discriminate H.
Qed.

Lemma has_gt_collapse_spaces b s : has_gt (collapse_spaces b s) = true → has_gt s = true.
Proof.
  revert b; induction s as [|c t IH]; intros b; cbn [collapse_spaces]; [done|].
  rewrite has_gt_cons. destruct (is_space c) eqn:Hc.
  - destruct (is_space_not_bracket _ Hc) as [_ ->]. cbn [orb].
    destruct b; [apply IH|]. rewrite has_gt_cons. cbn [orb]. apply IH.
  - rewrite has_gt_cons. destruct (c =? GT); [done|]. apply IH.
Qed.

Lemma has_tag_collapse_spaces b s : has_tag s = false → has_tag (collapse_spaces b s) = false.
Proof.
  revert b; induction s as [|c t IH]; intros b; cbn [collapse_spaces has_tag]; [done|].
  intros [Hc Ht]%orb_false_elim. destruct (is_space c) eqn:Hs.
  - destruct b; [by apply IH|]. cbn [has_tag]. by apply IH.
  - cbn [has_tag]. rewrite (IH _ Ht), orb_false_r.
    apply andb_false_iff in Hc as [->|Hc]; [done|].
    destruct (has_gt (collapse_spaces false t)) eqn:E; [|apply andb_false_r].
    apply has_gt_collapse_spaces in E. congruence.
Qed.

Lemma has_tag_trim_start s : has_tag s = false → has_tag (trim_start s) = false.
Proof.
  induction s as [|c t IH]; cbn [trim_start]; [done|].
  destruct (is_space c); [|done].
  cbn [has_tag]. intros [_ Ht]%orb_false_elim. by apply IH.
Qed.

Lemma has_gt_trim_end s : has_gt (trim_end s) = true → has_gt s = true.
Proof.
  induction s as [|c t IH]; cbn [trim_end]; [done|].
  rewrite has_gt_cons. destruct (trim_end t) as [|d r].
  - destruct (is_space c); [done|]. rewrite has_gt_cons.
    destruct (c =? GT); done.
  - rewrite has_gt_cons. destruct (c =? GT); [done|]. apply IH.
Qed.

Lemma has_tag_trim_end s : has_tag s = false → has_tag (trim_end s) = false.
Proof.
  induction s as [|c t IH]; cbn [trim_end has_tag]; [done|].
  intros [Hc Ht]%orb_false_elim. specialize (IH Ht).
  pose proof (has_gt_trim_end t) as Hgt.
  destruct (trim_end t) as [|d r].
  - destruct (is_space c); [done|]. cbn [has_tag has_gt existsb]. by rewrite andb_false_r.
  - cbn [has_tag] in *. rewrite IH, orb_false_r.
    apply andb_false_iff in Hc as [->|Hc]; [done|].
    destruct (has_gt (d :: r)) eqn:E; [|apply andb_false_r].
    rewrite Hgt in Hc; done.
Qed.

Lemma has_tag_sanitizeReason reason : has_tag (sanitizeReason reason) = false.
Proof.
  unfold sanitizeReason, trim.
  apply has_tag_trim_end, has_tag_trim_start, has_tag_collapse_spaces, has_tag_strip_tags.
Qed.

Lemma has_gt_app l r : has_gt (l ++ r) = has_gt l || has_gt r.
Proof. apply existsb_app. Qed.

Lemma has_tag_false_tag_free s : has_tag s = false → tag_free s.
Proof.
  induction s as [|c t IH]; intros H l m r E.
  - by destruct l.
  - cbn [has_tag] in H. apply orb_false_elim in H as [Hc Ht].
    destruct l as [|a l]; simplify_eq/=.
    + rewrite has_gt_app, has_gt_cons, N.eqb_refl in Hc.
      rewrite orb_true_r in Hc. done.
    + by eapply IH.
Qed.

Lemma tag_free_has_tag_false s : tag_free s → has_tag s = false.
Proof.
  induction s as [|c t IH]; intros H; cbn [has_tag]; [done|].
  apply orb_false_intro.
  - destruct (c =? LT) eqn:Hc; [|done]. apply N.eqb_eq in Hc as ->.
    destruct (has_gt t) eqn:Ht; [|done]. exfalso.
    apply existsb_exists in Ht as (x & Hx & ->%N.eqb_eq).
    apply in_split in Hx as (m & r & ->). by apply (H [] m r).
  - apply IH. intros l m r ->. by apply (H (c :: l) m r).
Qed.
Lemma spaced_collapse_spaces b s : spaced b (collapse_spaces b s) = true.
Proof.
  revert b; induction s as [|c t IH]; intros b; cbn [collapse_spaces]; [done|].
  destruct (is_space c) eqn:Hc.
  - destruct b; [apply IH|]. cbn [spaced]. 
    change (is_space SPACE) with true. cbv iota. rewrite N.eqb_refl. apply IH.
  - cbn [spaced]. rewrite Hc. apply IH.
Qed.

Lemma spaced_trim_start b s : spaced b s = true → spaced true (trim_start s) = true.
Proof.
  revert b; induction s as [|c t IH]; intros b; cbn [trim_start spaced]; [done|].
  destruct (is_space c) eqn:Hc.
  - intros [_ Ht]%andb_true_iff. by eapply IH.
  - cbn [spaced]. by rewrite Hc.
Qed.

Lemma spaced_trim_end b s : spaced b s = true → spaced b (trim_end s) = true.
Proof.
  revert b; induction s as [|c t IH]; intros b; cbn [trim_end spaced]; [done|].
  destruct (is_space c) eqn:Hc.
  - intros [Hb Ht]%andb_true_iff. specialize (IH _ Ht).
    destruct (trim_end t) as [|d r]; [done|].
    cbn [spaced] in *. rewrite Hc, Hb. exact IH.
  - intros Ht. specialize (IH _ Ht).
    destruct (trim_end t) as [|d r]; cbn [spaced] in *; by rewrite Hc.
Qed.

Lemma ends_clean_trim_end s : ends_clean (trim_end s) = true.
Proof.
  unfold ends_clean. induction s as [|c t IH]; cbn [trim_end]; [done|].
  destruct (trim_end t) as [|d r].
  - destruct (is_space c) eqn:Hc; [done|]. cbn. by rewrite Hc.
  - by rewrite last_cons_cons.
Qed.

Lemma collapsed_sanitizeReason reason : collapsed (sanitizeReason reason) = true.
Proof.
  unfold collapsed, sanitizeReason, trim. apply andb_true_intro; split.
  - eapply spaced_trim_end, spaced_trim_start, spaced_collapse_spaces.
  - apply ends_clean_trim_end.
Qed.

Lemma spaced_only_spaces b s c :
  spaced b s = true → c ∈ s → is_space c = true → c = SPACE.
Proof.
  revert b; induction s as [|d t IH]; intros b Hs Hin Hc; [by apply elem_of_nil in Hin|].
  cbn [spaced] in Hs. apply elem_of_cons in Hin as [->|Hin].
  - rewrite Hc in Hs. apply andb_true_iff in Hs as [[Hd _]%andb_true_iff _].
    by apply N.eqb_eq.
  - destruct (is_space d).
    + apply andb_true_iff in Hs as [_ Hs]. eauto.
    + eauto.
Qed.

Lemma spaced_no_runs b s l x y r :
  spaced b s = true → s = l ++ x :: y :: r → is_space x = true → is_space y = false.
Proof.
  revert b s; induction l as [|d l IH]; intros b s Hs -> Hx; cbn [app spaced] in Hs.
  - rewrite Hx in Hs. apply andb_true_iff in Hs as [_ Hs].
    destruct (is_space y); [|done].
    by apply andb_true_iff in Hs as [[_ ?]%andb_true_iff _].
  - destruct (is_space d).
    + apply andb_true_iff in Hs as [_ Hs]. eauto.
    + eauto.
Qed.

Lemma collapsed_whitespace_collapsed s : collapsed s = true → whitespace_collapsed s.
Proof.
  intros [Hs He]%andb_true_iff. split.
  - intros c. by apply spaced_only_spaces with true.
  - intros l x y r. by apply spaced_no_runs with true.
  - intros c r ->. cbn [spaced] in Hs. destruct (is_space c); [|done].
    by apply andb_true_iff in Hs as [[_ ?]%andb_true_iff _].
  - intros l c ->. unfold ends_clean in He. rewrite last_snoc in He.
    by apply negb_true_iff.
Qed.

(** The sanitiser delivers both: no tag is left, and whitespace is
    collapsed and trimmed. *)
Lemma sanitizeReason_sanitized reason :
  tag_free (sanitizeReason reason) ∧ whitespace_collapsed (sanitizeReason reason).
Proof.
  split.
  - apply has_tag_false_tag_free, has_tag_sanitizeReason.
  - apply collapsed_whitespace_collapsed, collapsed_sanitizeReason.
Qed.


(** ** Model discovery *)

(** Unfolds one run of the discovery down to pairs of events and
    completions. *)
Ltac run_discovery :=
  unfold fetch, try_catch, catch_clause, mbind, M_bind, await; cbn [fst snd].

Lemma str_truthy_str_or (a : option jsstring) : str_truthy (Some (str_or a [])) = str_truthy a.
Proof. by destruct a as [[|c s]|]. Qed.

Lemma fallbackToKnownModels_eq profile modelsInfo reason :
  fallbackToKnownModels profile modelsInfo reason
  = ([EvWarn (warning_message (logged_reason reason))],
     Return (fallback_response profile modelsInfo)).
Proof. reflexivity. Qed.

Lemma logged_reason_sanitized reason :
  tag_free (logged_reason reason) ∧ whitespace_collapsed (logged_reason reason).
Proof.
  unfold logged_reason. destruct (sanitizeReason reason) as [|c s] eqn:E.
  - split.
    + by apply has_tag_false_tag_free.
    + by apply collapsed_whitespace_collapsed.
  - cbn [str_or]. rewrite <- E. apply sanitizeReason_sanitized.
Qed.

Lemma status_reason_eq (r : Response) :
  join (js " - ")
    ([number_to_string (status r) ++ js " " ++ statusText r]
     ++ (if str_truthy (Some match text r with Return body => body | Throw _ => [] end)
         then [match text r with Return body => body | Throw _ => [] end] else []))
  = status_reason r.
Proof.
  unfold status_reason. destruct (text r) as [[|c body]|e]; reflexivity.
Qed.

Lemma catch_reason_Some e reason :
  thrown_reason e = Some reason → catch_reason e = ([], Return (Some reason)).
Proof.
  destruct e as [s|message|[| |s] [s'|]]; cbn [thrown_reason];
    intros H; try discriminate H; injection H as <-; reflexivity.
Qed.

Lemma loadMiniMaxModels_fallback_on profile modelsInfo settings reason :
  isMiniMaxProvider (provider profile) = true →
  has_key profile settings = true →
  discovery_failure
    (network MINIMAX_MODELS_ENDPOINT (models_request_headers profile settings)) reason →
  loadMiniMaxModels profile modelsInfo settings
  = ([EvFetch MINIMAX_MODELS_ENDPOINT (models_request_headers profile settings);
      EvWarn (warning_message (logged_reason reason))],
     Return (fallback_response profile modelsInfo)).
Proof.
  intros Hguard Hkey Hfail. unfold loadMiniMaxModels.
  rewrite Hguard. cbn [negb]. rewrite str_truthy_str_or.
  unfold has_key, hasMiniMaxEnvVars in Hkey. rewrite <- negb_orb, Hkey. cbn [negb].
  fold (models_request_headers profile settings).
  run_discovery.
  destruct Hfail as [r Hok|e reason He|r e reason Hok Hjson He|r data Hok Hjson Hids];
    cbv beta iota.
  - rewrite Hok. cbn [negb]. rewrite status_reason_eq, fallbackToKnownModels_eq. reflexivity.
  - cbn [fst snd]. rewrite (catch_reason_Some _ _ He). cbn [fst snd app].
    rewrite fallbackToKnownModels_eq. reflexivity.
  - rewrite Hok, Hjson. cbn [negb fst snd].
    rewrite (catch_reason_Some _ _ He). cbn [fst snd app].
    rewrite fallbackToKnownModels_eq. reflexivity.
  - rewrite Hok, Hjson, Hids. cbn [negb fst snd length Nat.eqb].
    rewrite fallbackToKnownModels_eq. reflexivity.
Qed.


Lemma loadMiniMaxModels_wrong_provider profile modelsInfo settings :
  isMiniMaxProvider (provider profile) = false →
  loadMiniMaxModels profile modelsInfo settings
  = ([], Return {| models := []; success := false |}).
Proof. intros H. unfold loadMiniMaxModels. by rewrite H. Qed.

Lemma loadMiniMaxModels_no_key profile modelsInfo settings :
  has_key profile settings = false →
  loadMiniMaxModels profile modelsInfo settings
  = ([], Return {| models := []; success := false |}).
Proof.
  intros Hkey. unfold loadMiniMaxModels.
  destruct (isMiniMaxProvider (provider profile)); cbn [negb]; [|done].
  rewrite str_truthy_str_or.
  unfold has_key, hasMiniMaxEnvVars in Hkey. by rewrite <- negb_orb, Hkey.
Qed.

(** With a key, the guards are passed and the request is sent. *)
Lemma loadMiniMaxModels_keyed profile modelsInfo settings :
  isMiniMaxProvider (provider profile) = true →
  has_key profile settings = true →
  loadMiniMaxModels profile modelsInfo settings
  = try_catch
      (response ← fetch MINIMAX_MODELS_ENDPOINT (models_request_headers profile settings);
       if negb (ok response)
       then fallbackToKnownModels profile modelsInfo (status_reason response)
       else
         data ← await (json response);
         if (length (model_ids (remote_models data)) =? 0)%nat
         then fallbackToKnownModels profile modelsInfo
                (js "Empty or unsupported MiniMax models response payload")
         else mret {| models := map (toModel profile modelsInfo)
                                    (model_ids (remote_models data));
                      success := true |})
      (catch_clause profile modelsInfo).
Proof.
  intros Hguard Hkey. unfold loadMiniMaxModels.
  rewrite Hguard. cbn [negb]. rewrite str_truthy_str_or.
  unfold has_key, hasMiniMaxEnvVars in Hkey. rewrite <- negb_orb, Hkey. cbn [negb].
  fold (models_request_headers profile settings).
  unfold fetch, mbind, M_bind. cbn [fst snd].
  destruct (network _ _) as [r|e]; [|done].
  by rewrite status_reason_eq.
Qed.

Lemma loadMiniMaxModels_parsed profile modelsInfo settings r data :
  isMiniMaxProvider (provider profile) = true →
  has_key profile settings = true →
  network MINIMAX_MODELS_ENDPOINT (models_request_headers profile settings) = Resolves r →
  ok r = true →
  json r = Return data →
  model_ids (remote_models data) ≠ [] →
  loadMiniMaxModels profile modelsInfo settings
  = ([EvFetch MINIMAX_MODELS_ENDPOINT (models_request_headers profile settings)],
     Return {| models := map (toModel profile modelsInfo) (model_ids (remote_models data));
               success := true |}).
Proof.
  intros Hguard Hkey Hnet Hok Hjson Hids.
  rewrite loadMiniMaxModels_keyed by done. run_discovery.
  rewrite Hnet, Hok, Hjson. cbn [negb fst snd].
  destruct (model_ids (remote_models data)) as [|modelId ids]; [done|]. reflexivity.
Qed.

(** A thrown value of which [JSON.stringify] makes [undefined]
    leaves [reason] undefined, and [sanitizeReason] then raises a
    [TypeError] inside the [catch] clause, which nothing catches. *)
Lemma loadMiniMaxModels_reasonless profile modelsInfo settings to_string :
  isMiniMaxProvider (provider profile) = true →
  has_key profile settings = true →
  network MINIMAX_MODELS_ENDPOINT (models_request_headers profile settings)
  = Rejects (ThrownOther StringifyUndefined to_string) →
  loadMiniMaxModels profile modelsInfo settings
  = ([EvFetch MINIMAX_MODELS_ENDPOINT (models_request_headers profile settings)],
     Throw (ThrownError REPLACE_OF_UNDEFINED)).
Proof.
  intros Hguard Hkey Hnet.
  rewrite loadMiniMaxModels_keyed by done. run_discovery.
  rewrite Hnet. reflexivity.
Qed.

Lemma fallback_response_ids profile modelsInfo :
  map model_id (models (fallback_response profile modelsInfo)) = KNOWN_MINIMAX_MODELS.
Proof. reflexivity. Qed.

Lemma toModel_ids profile modelsInfo ids :
  map model_id (map (toModel profile modelsInfo) ids) = ids.
Proof. induction ids as [|modelId ids IH]; [done|]. cbn [map]. by rewrite IH. Qed.

(** Every way the interaction can go: the discovery returns with
    [success] and at least one model, unless the thrown value leaves
    the [catch] clause without a reason. *)
Lemma loadMiniMaxModels_outcomes profile modelsInfo settings :
  isMiniMaxProvider (provider profile) = true →
  has_key profile settings = true →
  (∃ events response,
     loadMiniMaxModels profile modelsInfo settings = (events, Return response)
     ∧ success response = true ∧ models response ≠ [])
  ∨ (∃ events e error,
       loadMiniMaxModels profile modelsInfo settings = (events, Throw error)
       ∧ thrown_reason e = None
       ∧ (network MINIMAX_MODELS_ENDPOINT (models_request_headers profile settings)
            = Rejects e
          ∨ ∃ r, network MINIMAX_MODELS_ENDPOINT (models_request_headers profile settings)
                   = Resolves r ∧ ok r = true ∧ json r = Throw e)).
Proof.
  intros Hguard Hkey.
  assert (Hthrown : ∀ e,
    (∃ reason, thrown_reason e = Some reason)
    ∨ (thrown_reason e = None
       ∧ ∃ error, catch_clause profile modelsInfo e = ([], Throw error))).
  { intros [s|message|[| |s] [s'|]]; cbn [thrown_reason];
      try (by left; eauto); right; (split; [done|]); eexists; reflexivity. }
  destruct (network MINIMAX_MODELS_ENDPOINT (models_request_headers profile settings))
    as [r|e] eqn:Hnet.
  - destruct (ok r) eqn:Hok.
    + destruct (json r) as [data|e] eqn:Hjson.
      * destruct (model_ids (remote_models data)) as [|modelId ids] eqn:Hids.
        -- left. eexists _, _. split.
           { apply loadMiniMaxModels_fallback_on; [done..|]. rewrite Hnet.
             by eapply failure_empty. }
           done.
        -- left. eexists _, _. split.
           { eapply loadMiniMaxModels_parsed; [done..|]. by rewrite Hids. }
           by rewrite Hids.
      * destruct (Hthrown e) as [[reason He]|[He [error Herr]]].
        -- left. eexists _, _. split.
           { apply loadMiniMaxModels_fallback_on; [done..|]. rewrite Hnet.
             by eapply failure_parse. }
           done.
        -- right. eexists _, e, error. split.
           { rewrite loadMiniMaxModels_keyed by done.
             unfold fetch, try_catch, await, mbind, M_bind. cbn [fst snd].
             rewrite Hnet, Hok, Hjson. cbn [negb fst snd]. by rewrite Herr. }
           split; [done|]. right. by exists r.
    + left. eexists _, _. split.
      { apply loadMiniMaxModels_fallback_on; [done..|]. rewrite Hnet.
        by apply failure_status. }
      done.
  - destruct (Hthrown e) as [[reason He]|[He [error Herr]]].
    + left. eexists _, _. split.
      { apply loadMiniMaxModels_fallback_on; [done..|]. rewrite Hnet.
        by apply failure_network. }
      done.
    + right. eexists _, e, error. split.
      { rewrite loadMiniMaxModels_keyed by done.
        unfold fetch, try_catch, mbind, M_bind. cbn [fst snd].
        rewrite Hnet. cbn [fst snd]. by rewrite Herr. }
      split; [done|]. by left.
Qed.


(** ** Parsing the model list *)

Lemma remote_model_id_spec entry s :
  remote_model_id entry = Some s ↔ entry_identifier entry s.
Proof.
  split.
  - destruct entry as [| | |s'|items|members]; cbn [remote_model_id prop]; try done.
    + intros [= ->]. constructor.
    + unfold coalesce.
      destruct (member (js "id") members) as [[]|] eqn:Hid;
        destruct (member (js "model") members) as [[]|] eqn:Hmodel;
        destruct (member (js "name") members) as [[]|] eqn:Hname;
        intros [= ->];
        first [ by apply identifier_id
              | apply identifier_model; rewrite ?Hid; cbn [present]; tauto
              | apply identifier_name; rewrite ?Hid, ?Hmodel; cbn [present]; tauto ].
  - intros [s'|members s' Hid|members s' Hid Hmodel|members s' Hid Hmodel Hname];
      cbn [remote_model_id prop]; [done|..]; unfold coalesce.
    + by rewrite Hid.
    + rewrite Hmodel. by destruct (member (js "id") members) as [[]|]; cbn in Hid.
    + rewrite Hname.
      destruct (member (js "id") members) as [[]|]; cbn in Hid; try done;
        by destruct (member (js "model") members) as [[]|]; cbn in Hmodel.
Qed.

Lemma model_ids_cons entry entries :
  model_ids (entry :: entries)
  = match remote_model_id entry with
    | Some (c :: s) => (c :: s) :: model_ids entries
    | _ => model_ids entries
    end.
Proof.
  unfold model_ids. cbn [map omap].
  by destruct (remote_model_id entry) as [[|c s]|].
Qed.

Lemma model_ids_surviving entries ids :
  surviving_identifiers entries ids → model_ids entries = ids.
Proof.
  induction 1 as [|entry s entries ids Hs Hne _ IH|entry entries ids Hnone _ IH];
    [done|..]; rewrite model_ids_cons.
  - apply remote_model_id_spec in Hs. rewrite Hs.
    destruct s; [done|]. by rewrite IH.
  - destruct (remote_model_id entry) as [[|c s]|] eqn:E; [done| |done].
    apply remote_model_id_spec, Hnone in E. done.
Qed.

Lemma surviving_model_ids entries : surviving_identifiers entries (model_ids entries).
Proof.
  induction entries as [|entry entries IH]; [constructor|].
  rewrite model_ids_cons.
  destruct (remote_model_id entry) as [[|c s]|] eqn:E.
  - apply surviving_drop; [|done]. intros s Hs.
    apply remote_model_id_spec in Hs. congruence.
  - apply surviving_keep; [|done..]. by apply remote_model_id_spec.
  - apply surviving_drop; [|done]. intros s Hs.
    apply remote_model_id_spec in Hs. congruence.
Qed.

Lemma remote_models_data data entries :
  prop data (js "data") = Some (JArray entries) → remote_models data = entries.
Proof. unfold remote_models. by intros ->. Qed.


(** ** Cost, usage report and aider mapping *)

(** C4: [calculateMiniMaxCost] is sent tokens times the input rate,
    plus received tokens times the output rate, plus cache-write tokens
    times the cache-write rate, plus cache-read tokens times the
    cache-read rate; a missing input, output or cache-read rate counts
    as [0] and a missing cache-write rate as the input rate.  The
    result is that sum of binary64 products as it stands, the two
    cache terms being added to each other first; nothing is rounded to
    a currency unit or clamped.  Omitted cache counters count as [0]. *)
Theorem calculateMiniMaxCost_formula (model : Model)
    (sentTokens receivedTokens cacheWriteTokens cacheReadTokens : float) :
  calculateMiniMaxCost model sentTokens receivedTokens
    (Some cacheWriteTokens) (Some cacheReadTokens)
  = (sentTokens * inputRate model + receivedTokens * outputRate model
     + (cacheWriteTokens * cacheWriteRate model
        + cacheReadTokens * cacheReadRate model))%float
  ∧ calculateMiniMaxCost model sentTokens receivedTokens None None
    = calculateMiniMaxCost model sentTokens receivedTokens (Some 0%float) (Some 0%float).
Proof.
  split; [|reflexivity].
  unfold calculateMiniMaxCost, inputRate, outputRate, cacheWriteRate, cacheReadRate, inputRate.
  destruct model as [? ? [i|] [o|] [w|] [r|]]; reflexivity.
Qed.

Lemma anthropic_field_cacheRead providerMetadata :
  anthropic_field providerMetadata cacheReadInputTokens = metadata_cacheRead providerMetadata.
Proof. by destruct providerMetadata as [[[a|]]|]. Qed.

(** C5: the cache-read tokens of the usage report are the counter of
    the provider metadata when it is there, else the
    [cachedInputTokens] of the usage snapshot, else [0]; the sent
    tokens are the input tokens minus the cache-read tokens, whatever
    the sign of the difference; the running total is the task's prior
    total plus the cost of this call.  With 1000 input tokens, 300
    cache-read tokens in the metadata and a prior total of 5, the sent
    tokens are 700 and the total is 5 plus the message cost. *)
Theorem getMiniMaxUsageReport_accounting (t : Task) (p : ProviderProfile) (model : Model)
    (usage : LanguageModelUsage) (providerMetadata : option MiniMaxMetadata) :
  let report := getMiniMaxUsageReport t p model usage providerMetadata in
  let cacheRead :=
    match metadata_cacheRead providerMetadata with
    | Some tokens => tokens
    | None =>
        match cachedInputTokens usage with
        | Some tokens => tokens
        | None => 0%float
        end
    end in
  report_cacheReadTokens report = cacheRead
  ∧ report_sentTokens report = (num_or (inputTokens usage) 0 - cacheRead)%float
  ∧ report_messageCost report
    = calculateMiniMaxCost model (report_sentTokens report) (report_receivedTokens report)
        (Some (report_cacheWriteTokens report)) (Some (report_cacheReadTokens report))
  ∧ report_agentTotalCost report
    = (agentTotalCost (task t) + report_messageCost report)%float
  ∧ (inputTokens usage = Some 1000%float →
     metadata_cacheRead providerMetadata = Some 300%float →
     agentTotalCost (task t) = 5%float →
     report_sentTokens report = 700%float
     ∧ report_agentTotalCost report = (5 + report_messageCost report)%float).
Proof.
  cbv zeta. unfold getMiniMaxUsageReport. cbn [report_cacheReadTokens report_sentTokens
    report_messageCost report_agentTotalCost report_receivedTokens report_cacheWriteTokens].
  rewrite anthropic_field_cacheRead.
  assert (Hread : default (default 0%float (cachedInputTokens usage))
                    (metadata_cacheRead providerMetadata)
                  = match metadata_cacheRead providerMetadata with
                    | Some tokens => tokens
                    | None => match cachedInputTokens usage with
                              | Some tokens => tokens
                              | None => 0%float
                              end
                    end).
  { by destruct (metadata_cacheRead providerMetadata), (cachedInputTokens usage). }
  rewrite Hread. split_and!; try reflexivity.
  intros Hinput Hmeta Htotal. rewrite Hinput, Hmeta, Htotal. by split.
Qed.

(** C10: the [model] field of the usage report is the profile's
    identifier, a slash and the model's identifier. *)
Theorem getMiniMaxUsageReport_model (t : Task) (p : ProviderProfile) (model : Model)
    (usage : LanguageModelUsage) (providerMetadata : option MiniMaxMetadata) :
  report_model (getMiniMaxUsageReport t p model usage providerMetadata)
  = profile_id p ++ js "/" ++ model_id model.
Proof. reflexivity. Qed.

(** C7: the mapping always binds [ANTHROPIC_API_URL] to the MiniMax
    base URL, binds [ANTHROPIC_API_KEY] to the profile's key exactly
    when that key is there and not empty, binds nothing else, and names
    the model [anthropic/] followed by the identifier.  The function
    is given neither settings nor an environment to fall back on. *)
Theorem getMiniMaxAiderMapping_bindings (p : ProviderProfile) (modelId : jsstring) :
  let mapping := getMiniMaxAiderMapping p modelId in
  environmentVariables mapping !! ANTHROPIC_API_URL = Some MINIMAX_BASE_URL
  ∧ environmentVariables mapping !! ANTHROPIC_API_KEY
    = (if str_truthy (apiKey (provider p)) then apiKey (provider p) else None)
  ∧ (∀ name, name ≠ ANTHROPIC_API_URL → name ≠ ANTHROPIC_API_KEY →
       environmentVariables mapping !! name = None)
  ∧ modelName mapping = js "anthropic/" ++ modelId.
Proof.
  cbv zeta. unfold getMiniMaxAiderMapping. cbn [environmentVariables modelName].
  assert (Hne : ANTHROPIC_API_KEY ≠ ANTHROPIC_API_URL) by done.
  destruct (apiKey (provider p)) as [[|c key]|]; cbn [str_truthy].
  - split_and!; [by rewrite lookup_singleton_eq|by rewrite lookup_singleton_ne| |done].
    intros name Hurl _. by rewrite lookup_singleton_ne.
  - split_and!; [| | |done].
    + rewrite lookup_insert_ne by done. by rewrite lookup_singleton_eq.
    + by rewrite lookup_insert_eq.
    + intros name Hurl Hkey. rewrite lookup_insert_ne by done.
      by rewrite lookup_singleton_ne.
  - split_and!; [by rewrite lookup_singleton_eq|by rewrite lookup_singleton_ne| |done].
    intros name Hurl _. by rewrite lookup_singleton_ne.
Qed.


(** ** Key resolution *)

Lemma models_request_headers_explicit profile settings key :
  apiKey (provider profile) = Some key → key ≠ [] →
  models_request_headers profile settings
  = [(js "x-api-key", key); (js "anthropic-version", js "2023-06-01")].
Proof.
  intros Hkey Hne. unfold models_request_headers, request_headers_of. rewrite Hkey.
  by destruct key.
Qed.

Lemma loadMiniMaxModels_sends_request profile modelsInfo settings :
  isMiniMaxProvider (provider profile) = true →
  has_key profile settings = true →
  ∃ events completion,
    loadMiniMaxModels profile modelsInfo settings
    = (EvFetch MINIMAX_MODELS_ENDPOINT (models_request_headers profile settings) :: events,
       completion).
Proof.
  intros Hguard Hkey. rewrite loadMiniMaxModels_keyed by done.
  unfold fetch, try_catch, mbind, M_bind. cbn [fst snd].
  destruct (network _ _) as [r|e]; cbn [fst snd app].
  - match goal with |- context [match ?c with Return _ => _ | Throw _ => _ end] =>
      destruct c end; eauto.
  - eauto.
Qed.

Lemma createMiniMaxLlm_explicit profile model settings projectDir key :
  apiKey (provider profile) = Some key → key ≠ [] →
  createMiniMaxLlm profile model settings projectDir
  = ([], Return (client_for profile model key)).
Proof.
  intros Hkey Hne. unfold createMiniMaxLlm. rewrite Hkey.
  by destruct key.
Qed.

(** Without an explicit key everything hangs on the environment
    variable, resolved for the project directory. *)
Lemma createMiniMaxLlm_from_environment profile model settings projectDir :
  str_truthy (apiKey (provider profile)) = false →
  createMiniMaxLlm profile model settings projectDir
  = match getEffectiveEnvironmentVariable MINIMAX_API_KEY settings (Some projectDir) with
    | Some effectiveVar =>
        ([EvDebug (js "Loaded MINIMAX_API_KEY from " ++ source effectiveVar)],
         match value effectiveVar with
         | [] => Throw (ThrownError KEY_REQUIRED)
         | c :: key => Return (client_for profile model (c :: key))
         end)
    | None => ([], Throw (ThrownError KEY_REQUIRED))
    end.
Proof.
  intros Hkey. unfold createMiniMaxLlm. rewrite Hkey. cbn [negb].
  destruct (getEffectiveEnvironmentVariable _ _ _) as [[[|c key] src]|].
  - reflexivity.
  - reflexivity.
  - by destruct (apiKey (provider profile)) as [[|c key]|].
Qed.

Lemma KEY_REQUIRED_names_variable :
  ∃ before after, KEY_REQUIRED = before ++ MINIMAX_API_KEY ++ after.
Proof.
  exists (js "MiniMax API key is required in Providers settings or Aider environment variables ("),
    (js ")").
  reflexivity.
Qed.

(** C3: when the profile's key is missing or empty and
    [MINIMAX_API_KEY] does not resolve to a non-empty value,
    [loadMiniMaxModels] returns no models and [success = false] and
    sends no request (it does nothing at all); when the profile has a
    non-empty key, that key is the one the request carries, whatever
    the environment holds. *)
Theorem loadMiniMaxModels_key_check profile modelsInfo settings :
  (str_truthy (apiKey (provider profile)) = false →
   str_truthy (value <$> getEffectiveEnvironmentVariable MINIMAX_API_KEY settings None)
   = false →
   loadMiniMaxModels profile modelsInfo settings
   = ([], Return {| models := []; success := false |}))
  ∧ (∀ key,
       isMiniMaxProvider (provider profile) = true →
       apiKey (provider profile) = Some key → key ≠ [] →
       ∃ events completion,
         loadMiniMaxModels profile modelsInfo settings
         = (EvFetch MINIMAX_MODELS_ENDPOINT
              [(js "x-api-key", key); (js "anthropic-version", js "2023-06-01")]
            :: events, completion)).
Proof.
  split.
  - intros Hexplicit Henv. apply loadMiniMaxModels_no_key.
    unfold has_key, hasMiniMaxEnvVars. by rewrite Hexplicit, Henv.
  - intros key Hguard Hkey Hne.
    rewrite <- (models_request_headers_explicit profile settings key) by done.
    apply loadMiniMaxModels_sends_request; [done|].
    unfold has_key. rewrite Hkey. by destruct key.
Qed.

(** C6: [createMiniMaxLlm] takes the profile's key when it is there
    and not empty, without looking at the environment; otherwise the
    value [MINIMAX_API_KEY] resolves to for the project directory.  It
    throws exactly when neither gives a non-empty key, and what it
    throws is an [Error] whose message names [MINIMAX_API_KEY].  The
    failures [loadMiniMaxModels] tells apart (a profile of another
    provider, no key, a failed discovery) are returned, not thrown. *)
Theorem createMiniMaxLlm_key_resolution profile model settings projectDir modelsInfo :
  let explicit := apiKey (provider profile) in
  let resolved :=
    getEffectiveEnvironmentVariable MINIMAX_API_KEY settings (Some projectDir) in
  (∀ key, explicit = Some key → key ≠ [] →
     createMiniMaxLlm profile model settings projectDir
     = ([], Return (client_for profile model key)))
  ∧ (∀ effectiveVar,
       str_truthy explicit = false → resolved = Some effectiveVar →
       value effectiveVar ≠ [] →
       createMiniMaxLlm profile model settings projectDir
       = ([EvDebug (js "Loaded MINIMAX_API_KEY from " ++ source effectiveVar)],
          Return (client_for profile model (value effectiveVar))))
  ∧ ((∃ events error,
        createMiniMaxLlm profile model settings projectDir = (events, Throw error))
     ↔ str_truthy explicit = false ∧ str_truthy (value <$> resolved) = false)
  ∧ (∀ events error,
       createMiniMaxLlm profile model settings projectDir = (events, Throw error) →
       error = ThrownError KEY_REQUIRED)
  ∧ (∃ before after, KEY_REQUIRED = before ++ MINIMAX_API_KEY ++ after)
  ∧ (isMiniMaxProvider (provider profile) = false ∨ has_key profile settings = false →
     loadMiniMaxModels profile modelsInfo settings
     = ([], Return {| models := []; success := false |}))
  ∧ (∀ reason,
       isMiniMaxProvider (provider profile) = true →
       has_key profile settings = true →
       discovery_failure
         (network MINIMAX_MODELS_ENDPOINT (models_request_headers profile settings))
         reason →
       ∃ events response,
         loadMiniMaxModels profile modelsInfo settings = (events, Return response)).
Proof.
  cbv zeta. split_and!.
  - intros key Hkey Hne. by apply createMiniMaxLlm_explicit.
  - intros effectiveVar Hexplicit Hresolved Hvalue.
    rewrite createMiniMaxLlm_from_environment, Hresolved by done.
    by destruct (value effectiveVar).
  - destruct (apiKey (provider profile)) as [[|c key]|] eqn:Hexplicit.
    + rewrite createMiniMaxLlm_from_environment by by rewrite Hexplicit.
      destruct (getEffectiveEnvironmentVariable _ _ _) as [[[|c key] src]|]; cbn;
        split; eauto; try (by intros [_ [=]]); by intros (? & ? & [=]).
    + rewrite (createMiniMaxLlm_explicit _ _ _ _ (c :: key)) by done.
      split; [by intros (? & ? & [=])|by intros [[=] _]].
    + rewrite createMiniMaxLlm_from_environment by by rewrite Hexplicit.
      destruct (getEffectiveEnvironmentVariable _ _ _) as [[[|c key] src]|]; cbn;
        split; eauto; try (by intros [_ [=]]); by intros (? & ? & [=]).
  - intros events error.
    destruct (apiKey (provider profile)) as [[|c key]|] eqn:Hexplicit.
    + rewrite createMiniMaxLlm_from_environment by by rewrite Hexplicit.
      destruct (getEffectiveEnvironmentVariable _ _ _) as [[[|c key] src]|];
        by intros [= _ <-].
    + rewrite (createMiniMaxLlm_explicit _ _ _ _ (c :: key)) by done. by intros [=].
    + rewrite createMiniMaxLlm_from_environment by by rewrite Hexplicit.
      destruct (getEffectiveEnvironmentVariable _ _ _) as [[[|c key] src]|];
        by intros [= _ <-].
  - apply KEY_REQUIRED_names_variable.
  - intros [Hguard|Hkey].
    + by apply loadMiniMaxModels_wrong_provider.
    + by apply loadMiniMaxModels_no_key.
  - intros reason Hguard Hkey Hfail. eexists _, _.
    by apply loadMiniMaxModels_fallback_on.
Qed.

(** C9: an explicit key that is the empty string counts as no key.
    [getMiniMaxAiderMapping] answers as for a profile without a key and
    binds no [ANTHROPIC_API_KEY]; [createMiniMaxLlm] answers as for a
    profile without a key: it turns to the environment variable and
    throws when that does not resolve or resolves to the empty
    string.  [loadMiniMaxModels] makes no difference either, given a
    type guard that does not look at the key. *)
Theorem empty_key_counts_as_absent profile model modelId modelsInfo settings projectDir :
  let empty := with_apiKey profile (Some []) in
  let absent := with_apiKey profile None in
  getMiniMaxAiderMapping empty modelId = getMiniMaxAiderMapping absent modelId
  ∧ environmentVariables (getMiniMaxAiderMapping empty modelId) !! ANTHROPIC_API_KEY = None
  ∧ createMiniMaxLlm empty model settings projectDir
    = createMiniMaxLlm absent model settings projectDir
  ∧ createMiniMaxLlm empty model settings projectDir
    = match getEffectiveEnvironmentVariable MINIMAX_API_KEY settings (Some projectDir) with
      | Some effectiveVar =>
          ([EvDebug (js "Loaded MINIMAX_API_KEY from " ++ source effectiveVar)],
           match value effectiveVar with
           | [] => Throw (ThrownError KEY_REQUIRED)
           | c :: key => Return (client_for profile model (c :: key))
           end)
      | None => ([], Throw (ThrownError KEY_REQUIRED))
      end
  ∧ (isMiniMaxProvider (provider empty) = isMiniMaxProvider (provider absent) →
     loadMiniMaxModels empty modelsInfo settings
     = loadMiniMaxModels absent modelsInfo settings).
Proof.
  cbv zeta. split_and!.
  - reflexivity.
  - change (getMiniMaxAiderMapping (with_apiKey profile (Some [])) modelId)
      with {| modelName := js "anthropic/" ++ modelId;
              environmentVariables := {[ ANTHROPIC_API_URL := MINIMAX_BASE_URL ]} |}.
    cbn [environmentVariables]. by rewrite lookup_singleton_ne.
  - by rewrite !createMiniMaxLlm_from_environment.
  - by rewrite createMiniMaxLlm_from_environment.
  - intros Hguard. unfold loadMiniMaxModels. rewrite Hguard. reflexivity.
Qed.


(** ** Discovery: parsing *)

(** C2, as the code has it: of an entry of the [data] array, a bare
    string is the identifier; of an object, the identifier is the first
    of [id], [model], [name] that is there and not [null], and only if
    that one is a string (a string field behind an [id] of another
    type is not read).  Entries that yield no identifier or an empty
    one are dropped; when an identifier is left, the response is
    [success = true] with one model per surviving identifier, in the
    order of the entries. *)
Theorem loadMiniMaxModels_parses_entries profile modelsInfo settings r data entries ids :
  isMiniMaxProvider (provider profile) = true →
  has_key profile settings = true →
  network MINIMAX_MODELS_ENDPOINT (models_request_headers profile settings) = Resolves r →
  ok r = true →
  json r = Return data →
  prop data (js "data") = Some (JArray entries) →
  surviving_identifiers entries ids →
  ids ≠ [] →
  ∃ response,
    loadMiniMaxModels profile modelsInfo settings
    = ([EvFetch MINIMAX_MODELS_ENDPOINT (models_request_headers profile settings)],
       Return response)
    ∧ success response = true
    ∧ models response = map (toModel profile modelsInfo) ids
    ∧ map model_id (models response) = ids.
Proof.
  intros Hguard Hkey Hnet Hok Hjson Hdata Hids Hne.
  apply model_ids_surviving in Hids. apply remote_models_data in Hdata.
  eexists. split.
  { apply (loadMiniMaxModels_parsed _ _ _ r data); [done..|]. by rewrite Hdata, Hids. }
  rewrite Hdata, Hids. cbn [success models]. split_and!; [done..|].
  apply toModel_ids.
Qed.


(** ** More about the sanitiser *)

Lemma after_gt_split s rest :
  after_gt s = Some rest → ∃ before, s = before ++ GT :: rest.
Proof.
  revert rest; induction s as [|c t IH]; intros rest; cbn [after_gt]; [done|].
  destruct (c =? GT) eqn:Hc.
  - intros [= ->]. apply N.eqb_eq in Hc as ->. by exists [].
  - intros (before & ->)%IH. by exists (c :: before).
Qed.

Lemma strip_tags_tag_free s : has_tag s = false → strip_tags s = s.
Proof.
  funelim (strip_tags s); simp strip_tags; cbn [has_tag].
  - done.
  - intros [_ Ht]%orb_false_elim. by rewrite H.
  - rewrite e, (after_gt_Some _ _ e0). done.
  - intros [_ Ht]%orb_false_elim. by rewrite H.
Qed.

Lemma collapse_spaces_spaced b s : spaced b s = true → collapse_spaces b s = s.
Proof.
  revert b; induction s as [|c t IH]; intros b; cbn [spaced collapse_spaces]; [done|].
  destruct (is_space c).
  - intros [[->%N.eqb_eq ->%negb_true_iff]%andb_true_iff Ht]%andb_true_iff.
    by rewrite IH.
  - intros Ht. by rewrite IH.
Qed.

Lemma trim_start_spaced s : spaced true s = true → trim_start s = s.
Proof.
  destruct s as [|c t]; cbn [spaced trim_start]; [done|].
  destruct (is_space c); [|done]. by rewrite andb_false_r.
Qed.

Lemma trim_end_ends_clean s : ends_clean s = true → trim_end s = s.
Proof.
  unfold ends_clean. induction s as [|c t IH]; cbn [trim_end]; [done|].
  destruct t as [|d t].
  - cbn. by intros ->%negb_true_iff.
  - rewrite last_cons_cons. intros Ht. by rewrite IH.
Qed.

(** A reason that is already clean passes through unchanged. *)
Lemma sanitizeReason_clean s :
  has_tag s = false → collapsed s = true → sanitizeReason s = s.
Proof.
  intros Htag [Hspaced Hends]%andb_true_iff. unfold sanitizeReason, trim.
  rewrite strip_tags_tag_free by done.
  rewrite (collapse_spaces_spaced false).
  - by rewrite trim_start_spaced, trim_end_ends_clean.
  - destruct s as [|c t]; [done|]. cbn [spaced] in *.
    destruct (is_space c); [by rewrite andb_false_r in Hspaced|done].
Qed.

Lemma whitespace_collapsed_collapsed s : whitespace_collapsed s → collapsed s = true.
Proof.
  intros [Honly Hruns Hlead Htrail]. apply andb_true_intro; split.
  - assert (Hgen : ∀ t b,
      (∀ c, c ∈ t → is_space c = true → c = SPACE) →
      (∀ l x y r, t = l ++ x :: y :: r → is_space x = true → is_space y = false) →
      (∀ c r, b = true → t = c :: r → is_space c = false) →
      spaced b t = true).
    { induction t as [|c t IH]; intros b Ho Hr Hl; cbn [spaced]; [done|].
      destruct (is_space c) eqn:Hc.
      - rewrite (Ho c) by (done || apply list_elem_of_here). rewrite N.eqb_refl.
        destruct b; [by rewrite (Hl c t) in Hc|]. cbn [negb andb].
        apply IH.
        + intros d Hd. apply Ho. by apply list_elem_of_further.
        + intros l x y r ->. by apply (Hr (c :: l) x y r).
        + intros d r _ ->. by apply (Hr [] c d r).
      - apply IH.
        + intros d Hd. apply Ho. by apply list_elem_of_further.
        + intros l x y r ->. by apply (Hr (c :: l) x y r).
        + done. }
    apply Hgen; [done..|]. intros c r _. apply Hlead.
  - unfold ends_clean. destruct (last s) as [c|] eqn:Hlast; [|done].
    apply last_Some in Hlast as [l ->]. apply negb_true_iff. by eapply Htrail.
Qed.

(** X1: [sanitizeReason] leaves a reason unchanged exactly when the
    reason has no tag and its whitespace is already collapsed and
    trimmed: lone ['<'] and ['>'] signs and single spaces between
    words survive. *)
Theorem sanitizeReason_fixed_points (reason : jsstring) :
  sanitizeReason reason = reason ↔ tag_free reason ∧ whitespace_collapsed reason.
Proof.
  split.
  - intros <-. apply sanitizeReason_sanitized.
  - intros [Htag Hws]. apply sanitizeReason_clean.
    + by apply tag_free_has_tag_false.
    + by apply whitespace_collapsed_collapsed.
Qed.

(** X2: sanitising twice is sanitising once. *)
Theorem sanitizeReason_idempotent (reason : jsstring) :
  sanitizeReason (sanitizeReason reason) = sanitizeReason reason.
Proof.
  apply sanitizeReason_clean.
  - apply has_tag_sanitizeReason.
  - apply collapsed_sanitizeReason.
Qed.

Lemma length_strip_tags s : (length (strip_tags s) ≤ length s)%nat.
Proof.
  funelim (strip_tags s); simp strip_tags; cbn [length].
  - done.
  - by apply le_n_S.
  - apply le_n_S. pose proof (after_gt_length _ _ e0) as Hrest.
    etrans; [exact H|]. by apply Nat.lt_le_incl.
  - by apply le_n_S.
Qed.

Lemma length_collapse_spaces b s : (length (collapse_spaces b s) ≤ length s)%nat.
Proof.
  revert b; induction s as [|c t IH]; intros b; cbn [collapse_spaces length]; [done|].
  pose proof (IH true). pose proof (IH false).
  destruct (is_space c); [destruct b|]; cbn [length]; lia.
Qed.

Lemma length_trim_start s : (length (trim_start s) ≤ length s)%nat.
Proof.
  induction s as [|c t IH]; cbn [trim_start length]; [done|].
  destruct (is_space c); cbn [length]; lia.
Qed.

Lemma length_trim_end s : (length (trim_end s) ≤ length s)%nat.
Proof.
  induction s as [|c t IH]; cbn [trim_end length]; [done|].
  destruct (trim_end t); [destruct (is_space c)|]; cbn [length] in *; lia.
Qed.

(** X3: a sanitised reason is never longer than the reason. *)
Theorem sanitizeReason_length (reason : jsstring) :
  (length (sanitizeReason reason) ≤ length reason)%nat.
Proof.
  unfold sanitizeReason, trim.
  pose proof (length_trim_end (trim_start (collapse_spaces false (strip_tags reason)))).
  pose proof (length_trim_start (collapse_spaces false (strip_tags reason))).
  pose proof (length_collapse_spaces false (strip_tags reason)).
  pose proof (length_strip_tags reason).
  lia.
Qed.

Lemma visible_app l r : visible (l ++ r) = visible l ++ visible r.
Proof. apply List.filter_app. Qed.

Lemma visible_strip_tags s : visible (strip_tags s) `sublist_of` visible s.
Proof.
  funelim (strip_tags s); simp strip_tags; cbn [visible List.filter].
  - done.
  - destruct (negb (is_space c)); [by apply sublist_skip|done].
  - destruct (after_gt_split _ _ e0) as [before Hsplit]. clear H0 Heqcall e0.
    subst t. change (negb (is_space SPACE)) with false. cbv iota.
    fold (visible (strip_tags rest)).
    change (if negb (is_space c) then c :: List.filter (λ c0, negb (is_space c0)) (before ++ GT :: rest)
            else List.filter (λ c0, negb (is_space c0)) (before ++ GT :: rest))
      with (visible ([c] ++ before ++ [GT] ++ rest)).
    rewrite !visible_app. by do 3 apply sublist_inserts_l.
  - destruct (negb (is_space c)); [by apply sublist_skip|done].
Qed.

Lemma visible_collapse_spaces b s : visible (collapse_spaces b s) = visible s.
Proof.
  revert b; induction s as [|c t IH]; intros b; cbn [collapse_spaces]; [done|].
  cbn [visible List.filter]. destruct (is_space c) eqn:Hc; cbn [negb].
  - destruct b; [apply IH|]. cbn [visible List.filter].
    change (negb (is_space SPACE)) with false. cbv iota. apply IH.
  - cbn [visible List.filter]. rewrite Hc. cbn [negb]. f_equal. apply IH.
Qed.

Lemma visible_trim_start s : visible (trim_start s) = visible s.
Proof.
  induction s as [|c t IH]; cbn [trim_start]; [done|].
  cbn [visible List.filter]. destruct (is_space c) eqn:Hc; cbn [negb]; [done|].
  cbn [visible List.filter]. by rewrite Hc.
Qed.

Lemma visible_trim_end s : visible (trim_end s) = visible s.
Proof.
  induction s as [|c t IH]; cbn [trim_end]; [done|].
  cbn [visible List.filter]. fold (visible t). rewrite <- IH.
  destruct (trim_end t) as [|d r]; [|done].
  destruct (is_space c) eqn:Hc; cbn [negb]; [done|].
  cbn [visible List.filter]. by rewrite Hc.
Qed.

(** X4: sanitising only removes: the code units of the result that
    are not whitespace are code units of the reason, in their order;
    when the reason has no tag, they are all of them, so only
    whitespace changed. *)
Theorem sanitizeReason_keeps_text (reason : jsstring) :
  visible (sanitizeReason reason) `sublist_of` visible reason
  ∧ (tag_free reason → visible (sanitizeReason reason) = visible reason).
Proof.
  unfold sanitizeReason, trim.
  rewrite visible_trim_end, visible_trim_start, visible_collapse_spaces. split.
  - apply visible_strip_tags.
  - intros Htag. by rewrite strip_tags_tag_free by by apply tag_free_has_tag_false.
Qed.


(** ** More about discovery *)

Lemma models_request_headers_key profile settings :
  models_request_headers profile settings
  = [(js "x-api-key", discovery_key profile settings);
     (js "anthropic-version", js "2023-06-01")].
Proof.
  unfold models_request_headers, request_headers_of, discovery_key.
  destruct (apiKey (provider profile)) as [[|c key]|];
    by destruct (getEffectiveEnvironmentVariable _ _ _) as [[[|d v] src]|].
Qed.

Lemma has_key_discovery_key profile settings :
  has_key profile settings = true ↔ discovery_key profile settings ≠ [].
Proof.
  unfold has_key, hasMiniMaxEnvVars, discovery_key.
  destruct (apiKey (provider profile)) as [[|c key]|];
    by destruct (getEffectiveEnvironmentVariable _ _ _) as [[[|d v] src]|].
Qed.

(** The three ways a discovery that got past its guards can end. *)
Lemma loadMiniMaxModels_cases profile modelsInfo settings :
  isMiniMaxProvider (provider profile) = true →
  has_key profile settings = true →
  (∃ data,
     model_ids (remote_models data) ≠ []
     ∧ loadMiniMaxModels profile modelsInfo settings
       = ([discovery_request profile settings],
          Return {| models := map (toModel profile modelsInfo)
                                  (model_ids (remote_models data));
                    success := true |}))
  ∨ (∃ reason,
       loadMiniMaxModels profile modelsInfo settings
       = ([discovery_request profile settings;
           EvWarn (warning_message (logged_reason reason))],
          Return (fallback_response profile modelsInfo)))
  ∨ (∃ error,
       loadMiniMaxModels profile modelsInfo settings
       = ([discovery_request profile settings], Throw error)).
Proof.
  intros Hguard Hkey. unfold discovery_request.
  rewrite <- models_request_headers_key.
  assert (Hthrown : ∀ e,
    (∃ reason, thrown_reason e = Some reason)
    ∨ (∃ error, catch_clause profile modelsInfo e = ([], Throw error))).
  { intros [s|message|[| |s] [s'|]]; cbn [thrown_reason];
      try (by left; eauto); right; eexists; reflexivity. }
  destruct (network MINIMAX_MODELS_ENDPOINT (models_request_headers profile settings))
    as [r|e] eqn:Hnet.
  - destruct (ok r) eqn:Hok.
    + destruct (json r) as [data|e] eqn:Hjson.
      * destruct (model_ids (remote_models data)) as [|modelId ids] eqn:Hids.
        -- right; left. eexists.
           apply loadMiniMaxModels_fallback_on; [done..|]. rewrite Hnet.
           by eapply failure_empty.
        -- left. exists data. rewrite Hids. split; [done|]. rewrite <- Hids.
           eapply loadMiniMaxModels_parsed; [done..|]. by rewrite Hids.
      * destruct (Hthrown e) as [[reason He]|[error Herr]].
        -- right; left. eexists.
           apply loadMiniMaxModels_fallback_on; [done..|]. rewrite Hnet.
           by eapply failure_parse.
        -- right; right. exists error.
           rewrite loadMiniMaxModels_keyed by done.
           unfold fetch, try_catch, await, mbind, M_bind. cbn [fst snd].
           rewrite Hnet, Hok, Hjson. cbn [negb fst snd]. by rewrite Herr.
    + right; left. eexists.
      apply loadMiniMaxModels_fallback_on; [done..|]. rewrite Hnet.
      by apply failure_status.
  - destruct (Hthrown e) as [[reason He]|[error Herr]].
    + right; left. eexists.
      apply loadMiniMaxModels_fallback_on; [done..|]. rewrite Hnet.
      by apply failure_network.
    + right; right. exists error.
      rewrite loadMiniMaxModels_keyed by done.
      unfold fetch, try_catch, mbind, M_bind. cbn [fst snd].
      rewrite Hnet. cbn [fst snd]. by rewrite Herr.
Qed.

Lemma model_ids_not_empty entries : Forall (λ modelId, modelId ≠ []) (model_ids entries).
Proof.
  induction entries as [|entry entries IH]; [constructor|].
  rewrite model_ids_cons. destruct (remote_model_id entry) as [[|c s]|]; [done| |done].
  by constructor.
Qed.

(** X5: whatever [loadMiniMaxModels] returns, [success] is [true]
    exactly when the list of models is not empty, and it is [false]
    exactly for a profile of another provider or a missing key: a
    failed request never shows as [success = false]. *)
Theorem loadMiniMaxModels_success_means_models profile modelsInfo settings events response :
  loadMiniMaxModels profile modelsInfo settings = (events, Return response) →
  (success response = true ↔ models response ≠ [])
  ∧ (success response = false
     ↔ isMiniMaxProvider (provider profile) = false ∨ has_key profile settings = false).
Proof.
  intros Hrun.
  destruct (isMiniMaxProvider (provider profile)) eqn:Hguard.
  - destruct (has_key profile settings) eqn:Hkey.
    + destruct (loadMiniMaxModels_cases profile modelsInfo settings Hguard Hkey)
        as [(data & Hids & Hcase)|[[reason Hcase]|[error Hcase]]];
        rewrite Hcase in Hrun; simplify_eq/=.
      * destruct (model_ids (remote_models data)); [done|]. simpl. intuition congruence.
      * intuition congruence.
    + rewrite loadMiniMaxModels_no_key in Hrun by done. simplify_eq/=. intuition congruence.
  - rewrite loadMiniMaxModels_wrong_provider in Hrun by done. simplify_eq/=.
    intuition congruence.
Qed.

(** X6: every model [loadMiniMaxModels] returns belongs to the
    profile it was asked for and has an identifier that is not
    empty. *)
Theorem loadMiniMaxModels_models_of_profile profile modelsInfo settings events response :
  loadMiniMaxModels profile modelsInfo settings = (events, Return response) →
  Forall (λ model, model_providerId model = profile_id profile ∧ model_id model ≠ [])
         (models response).
Proof.
  intros Hrun.
  destruct (isMiniMaxProvider (provider profile)) eqn:Hguard.
  - destruct (has_key profile settings) eqn:Hkey.
    + destruct (loadMiniMaxModels_cases profile modelsInfo settings Hguard Hkey)
        as [(data & Hids & Hcase)|[[reason Hcase]|[error Hcase]]];
        rewrite Hcase in Hrun; simplify_eq/=.
      * apply Forall_fmap. eapply Forall_impl; [apply model_ids_not_empty|].
        by intros modelId Hne.
      * by repeat constructor.
    + rewrite loadMiniMaxModels_no_key in Hrun by done. simplify_eq/=. constructor.
  - rewrite loadMiniMaxModels_wrong_provider in Hrun by done. simplify_eq/=. constructor.
Qed.

(** X7: a call of [loadMiniMaxModels] does nothing at all for a
    profile of another provider or without a key; otherwise it sends
    exactly one request, to the models endpoint, with a key that is
    not empty (the profile's, else the environment's) and the protocol
    version, followed by at most one warning.  It never sends a second
    request and logs nothing else. *)
Theorem loadMiniMaxModels_events profile modelsInfo settings :
  let events := (loadMiniMaxModels profile modelsInfo settings).1 in
  ((isMiniMaxProvider (provider profile) = false ∨ has_key profile settings = false)
   ∧ events = [])
  ∨ (isMiniMaxProvider (provider profile) = true
     ∧ has_key profile settings = true
     ∧ discovery_key profile settings ≠ []
     ∧ (events = [discovery_request profile settings]
        ∨ ∃ message, events = [discovery_request profile settings; EvWarn message])).
Proof.
  cbv zeta.
  destruct (isMiniMaxProvider (provider profile)) eqn:Hguard.
  - destruct (has_key profile settings) eqn:Hkey.
    + right. split_and!; [done..|by apply has_key_discovery_key|].
      destruct (loadMiniMaxModels_cases profile modelsInfo settings Hguard Hkey)
        as [(data & Hids & ->)|[[reason ->]|[error ->]]]; eauto.
    + left. rewrite loadMiniMaxModels_no_key by done. eauto.
  - left. rewrite loadMiniMaxModels_wrong_provider by done. eauto.
Qed.

(** X8: [hasMiniMaxEnvVars] tells whether discovery goes ahead for a
    MiniMax profile without a key of its own: the request is sent
    exactly when it answers [true], and the request then carries the
    value of the environment variable. *)
Theorem hasMiniMaxEnvVars_decides_discovery profile modelsInfo settings :
  isMiniMaxProvider (provider profile) = true →
  str_truthy (apiKey (provider profile)) = false →
  (hasMiniMaxEnvVars settings = true
   ↔ ∃ effectiveVar events completion,
       getEffectiveEnvironmentVariable MINIMAX_API_KEY settings None = Some effectiveVar
       ∧ loadMiniMaxModels profile modelsInfo settings
         = (EvFetch MINIMAX_MODELS_ENDPOINT
              [(js "x-api-key", value effectiveVar);
               (js "anthropic-version", js "2023-06-01")] :: events, completion))
  ∧ (hasMiniMaxEnvVars settings = false
     ↔ loadMiniMaxModels profile modelsInfo settings
       = ([], Return {| models := []; success := false |})).
Proof.
  intros Hguard Hexplicit.
  assert (Hkey : has_key profile settings = hasMiniMaxEnvVars settings).
  { unfold has_key. by rewrite Hexplicit. }
  destruct (hasMiniMaxEnvVars settings) eqn:Henv.
  - assert (∃ effectiveVar events completion,
       getEffectiveEnvironmentVariable MINIMAX_API_KEY settings None = Some effectiveVar
       ∧ loadMiniMaxModels profile modelsInfo settings
         = (EvFetch MINIMAX_MODELS_ENDPOINT
              [(js "x-api-key", value effectiveVar);
               (js "anthropic-version", js "2023-06-01")] :: events, completion))
      as Hsent.
    { unfold hasMiniMaxEnvVars in Henv.
      destruct (getEffectiveEnvironmentVariable MINIMAX_API_KEY settings None)
        as [effectiveVar|] eqn:Hvar; [|done].
      exists effectiveVar.
      destruct (loadMiniMaxModels_sends_request profile modelsInfo settings Hguard Hkey)
        as (events & completion & Hrun).
      exists events, completion. split; [done|]. rewrite Hrun.
      rewrite models_request_headers_key. unfold discovery_key. rewrite Hvar.
      by destruct (apiKey (provider profile)) as [[|c key]|]. }
    split; [done|]. split; [done|].
    destruct Hsent as (? & ? & ? & _ & ->). done.
  - rewrite loadMiniMaxModels_no_key by done. split; [|done].
    split; [done|]. by intros (? & ? & ? & _ & [=]).
Qed.


(** ** The status code in the warning *)

Lemma strip_tags_keeps c t : (c =? LT) = false → strip_tags (c :: t) = c :: strip_tags t.
Proof.
  intros Hc. funelim (strip_tags (c :: t)); simp strip_tags; try congruence.
  all: simplify_eq; try congruence.
Qed.

Lemma is_digit_plain c : is_digit c = true → is_space c = false ∧ (c =? LT) = false.
Proof.
  unfold is_digit, is_space, LT. intros [H1 H2]%andb_true_iff.
  apply N.leb_le in H1, H2. split.
  - repeat (apply orb_false_intro); try apply N.eqb_neq; try lia;
      apply andb_false_iff; (left; apply N.leb_gt; lia) || (right; apply N.leb_gt; lia).
  - apply N.eqb_neq. lia.
Qed.

Lemma strip_tags_digits digits rest :
  Forall (λ c, is_digit c = true) digits →
  strip_tags (digits ++ rest) = digits ++ strip_tags rest.
Proof.
  induction 1 as [|c w Hc _ IH]; [done|]. cbn [app].
  rewrite strip_tags_keeps by by apply is_digit_plain. by rewrite IH.
Qed.

Lemma collapse_spaces_digits digits rest :
  Forall (λ c, is_digit c = true) digits →
  collapse_spaces false (digits ++ rest) = digits ++ collapse_spaces false rest.
Proof.
  induction 1 as [|c w Hc _ IH]; [done|]. cbn [app collapse_spaces].
  destruct (is_digit_plain _ Hc) as [-> _]. by rewrite IH.
Qed.

Lemma trim_end_digits digits rest :
  Forall (λ c, is_digit c = true) digits →
  trim_end (digits ++ rest) = digits ++ trim_end rest.
Proof.
  induction 1 as [|c w Hc _ IH]; [done|]. cbn [app trim_end].
  rewrite IH. destruct (is_digit_plain _ Hc) as [-> _]. by destruct (w ++ trim_end rest).
Qed.

(** A reason that starts with digits still starts with them once it
    is sanitised. *)
Lemma sanitizeReason_digits c digits rest :
  Forall (λ c, is_digit c = true) (c :: digits) →
  sanitizeReason ((c :: digits) ++ rest)
  = (c :: digits) ++ trim_end (collapse_spaces false (strip_tags rest)).
Proof.
  intros Hdigits. unfold sanitizeReason, trim.
  rewrite strip_tags_digits, collapse_spaces_digits by done.
  cbn [app trim_start]. destruct (is_digit_plain c) as [-> _]; [by inversion Hdigits|].
  exact (trim_end_digits (c :: digits) _ Hdigits).
Qed.

Lemma number_to_string_digits n :
  Forall (λ c, is_digit c = true) (number_to_string n) ∧ number_to_string n ≠ [].
Proof.
  unfold number_to_string.
  assert (Hdigits : ∀ d, Forall (λ c, is_digit c = true)
                           (js (DecimalString.NilEmpty.string_of_uint d))).
  { induction d; cbn; by constructor. }
  destruct (N.to_uint n) eqn:Hd; (split; [|done]);
    solve [ repeat constructor | apply (Hdigits (_ u)) ].
Qed.

(** X9: the warning for a response outside 200-299 gives the status
    code first: its reason starts with the decimal digits of the
    status, whatever the status text and the body hold. *)
Theorem loadMiniMaxModels_warning_shows_status profile modelsInfo settings r :
  isMiniMaxProvider (provider profile) = true →
  has_key profile settings = true →
  network MINIMAX_MODELS_ENDPOINT (models_request_headers profile settings) = Resolves r →
  ok r = false →
  ∃ rest,
    loadMiniMaxModels profile modelsInfo settings
    = ([discovery_request profile settings;
        EvWarn (warning_message (number_to_string (status r) ++ rest))],
       Return (fallback_response profile modelsInfo)).
Proof.
  intros Hguard Hkey Hnet Hok.
  assert (∃ rest, logged_reason (status_reason r) = number_to_string (status r) ++ rest)
    as [rest Hrest].
  { destruct (number_to_string_digits (status r)) as [Hdigits Hne].
    assert (∃ tail, status_reason r = number_to_string (status r) ++ tail) as [tail ->].
    { unfold status_reason. cbv zeta.
      destruct (text r) as [[|c body]|e]; rewrite <- ?app_assoc; eauto. }
    destruct (number_to_string (status r)) as [|c digits]; [done|].
    unfold logged_reason. rewrite sanitizeReason_digits by done. cbn [app str_or]. eauto. }
  exists rest. rewrite <- Hrest. unfold discovery_request.
  rewrite <- models_request_headers_key.
  apply loadMiniMaxModels_fallback_on; [done..|]. rewrite Hnet. by apply failure_status.
Qed.


(** ** How the operations fit together *)

Lemma getMiniMaxAiderMapping_lookup (p : ProviderProfile) (modelId : jsstring) :
  environmentVariables (getMiniMaxAiderMapping p modelId) !! ANTHROPIC_API_URL
  = Some MINIMAX_BASE_URL
  ∧ environmentVariables (getMiniMaxAiderMapping p modelId) !! ANTHROPIC_API_KEY
    = match apiKey (provider p) with
      | Some (c :: key) => Some (c :: key)
      | _ => None
      end.
Proof.
  unfold getMiniMaxAiderMapping. cbn [environmentVariables].
  assert (Hne : ANTHROPIC_API_KEY ≠ ANTHROPIC_API_URL) by done.
  destruct (apiKey (provider p)) as [[|c key]|]; cbn [str_truthy]; split;
    rewrite ?lookup_insert_eq, ?lookup_insert_ne, ?lookup_singleton_eq,
      ?lookup_singleton_ne by done; done.
Qed.

(** X10: when the environment variable resolves the same with and
    without the project directory, discovery and client construction
    stand or fall together: with a key, the client is built around the
    very key the discovery request carries; without one, discovery
    answers [success = false] and the construction throws. *)
Theorem discovery_and_client_share_key profile model modelsInfo settings projectDir :
  isMiniMaxProvider (provider profile) = true →
  getEffectiveEnvironmentVariable MINIMAX_API_KEY settings (Some projectDir)
  = getEffectiveEnvironmentVariable MINIMAX_API_KEY settings None →
  (has_key profile settings = true →
   ∃ debug events completion,
     createMiniMaxLlm profile model settings projectDir
     = (debug, Return (client_for profile model (discovery_key profile settings)))
     ∧ loadMiniMaxModels profile modelsInfo settings
       = (discovery_request profile settings :: events, completion))
  ∧ (has_key profile settings = false →
     (∃ debug, createMiniMaxLlm profile model settings projectDir
               = (debug, Throw (ThrownError KEY_REQUIRED)))
     ∧ loadMiniMaxModels profile modelsInfo settings
       = ([], Return {| models := []; success := false |})).
Proof.
  intros Hguard Hscope. split; intros Hkey.
  - destruct (loadMiniMaxModels_sends_request profile modelsInfo settings Hguard Hkey)
      as (events & completion & Hrun).
    unfold discovery_request. rewrite <- models_request_headers_key.
    apply has_key_discovery_key in Hkey. unfold discovery_key in *.
    destruct (apiKey (provider profile)) as [[|c key]|] eqn:Hexplicit.
    + rewrite createMiniMaxLlm_from_environment, Hscope by by rewrite Hexplicit.
      destruct (getEffectiveEnvironmentVariable _ _ None) as [[[|d v] src]|]; [done| |done].
      eauto.
    + rewrite (createMiniMaxLlm_explicit _ _ _ _ (c :: key)) by done. eauto.
    + rewrite createMiniMaxLlm_from_environment, Hscope by by rewrite Hexplicit.
      destruct (getEffectiveEnvironmentVariable _ _ None) as [[[|d v] src]|]; [done| |done].
      eauto.
  - split; [|by apply loadMiniMaxModels_no_key].
    unfold has_key, hasMiniMaxEnvVars in Hkey. apply orb_false_elim in Hkey as [Hexplicit Henv].
    rewrite createMiniMaxLlm_from_environment, Hscope by done.
    destruct (getEffectiveEnvironmentVariable _ _ None) as [[[|d v] src]|]; [eauto|done|eauto].
Qed.

(** X11: the client and the aider mapping of one profile point at the
    same endpoint, and a key given to aider is the key of the client.
    When aider is given no key although a client could be built, the
    client's key came from the environment variable, which the mapping
    never reads. *)
Theorem aider_mapping_matches_client profile model modelId settings projectDir
    events client :
  createMiniMaxLlm profile model settings projectDir = (events, Return client) →
  environmentVariables (getMiniMaxAiderMapping profile modelId) !! ANTHROPIC_API_URL
  = Some (llm_baseURL client)
  ∧ (∀ key,
       environmentVariables (getMiniMaxAiderMapping profile modelId) !! ANTHROPIC_API_KEY
       = Some key →
       llm_apiKey client = key ∧ events = [])
  ∧ (environmentVariables (getMiniMaxAiderMapping profile modelId) !! ANTHROPIC_API_KEY
     = None →
     ∃ effectiveVar,
       getEffectiveEnvironmentVariable MINIMAX_API_KEY settings (Some projectDir)
       = Some effectiveVar
       ∧ llm_apiKey client = value effectiveVar
       ∧ events = [EvDebug (js "Loaded MINIMAX_API_KEY from " ++ source effectiveVar)]).
Proof.
  intros Hrun.
  destruct (getMiniMaxAiderMapping_lookup profile modelId) as [-> ->].
  destruct (apiKey (provider profile)) as [[|c key]|] eqn:Hexplicit.
  - rewrite createMiniMaxLlm_from_environment in Hrun by by rewrite Hexplicit.
    destruct (getEffectiveEnvironmentVariable _ _ _) as [[[|d v] src]|];
      simplify_eq/=. split_and!; [done..|]. eauto.
  - rewrite (createMiniMaxLlm_explicit _ _ _ _ (c :: key)) in Hrun by done.
    simplify_eq/=. split_and!; [done| |done]. by intros ? [= <-].
  - rewrite createMiniMaxLlm_from_environment in Hrun by by rewrite Hexplicit.
    destruct (getEffectiveEnvironmentVariable _ _ _) as [[[|d v] src]|];
      simplify_eq/=. split_and!; [done..|]. eauto.
Qed.

(** X12: what is typed into the key field is what the form shows
    again and, once stored, what every operation uses: a text that is
    not empty is the key of the client, of the discovery request and of
    the aider mapping, whatever the environment holds; clearing the
    field stores the empty string, which leaves aider without a key. *)
Theorem typed_key_is_used profile model modelId settings projectDir typed :
  input_value (handleApiKeyChange (provider profile) typed) = typed
  ∧ provider_name (handleApiKeyChange (provider profile) typed)
    = provider_name (provider profile)
  ∧ (typed ≠ [] →
     createMiniMaxLlm (edit_key profile typed) model settings projectDir
     = ([], Return (client_for profile model typed))
     ∧ discovery_key (edit_key profile typed) settings = typed
     ∧ environmentVariables (getMiniMaxAiderMapping (edit_key profile typed) modelId)
       !! ANTHROPIC_API_KEY = Some typed)
  ∧ (typed = [] →
     apiKey (provider (edit_key profile typed)) = Some []
     ∧ environmentVariables (getMiniMaxAiderMapping (edit_key profile typed) modelId)
       !! ANTHROPIC_API_KEY = None).
Proof.
  split_and!.
  - by destruct typed.
  - done.
  - intros Hne. split_and!.
    + by rewrite (createMiniMaxLlm_explicit _ _ _ _ typed).
    + unfold discovery_key. cbn. by destruct typed.
    + destruct (getMiniMaxAiderMapping_lookup (edit_key profile typed) modelId) as [_ ->].
      cbn. by destruct typed.
  - intros ->. split; [done|].
    by destruct (getMiniMaxAiderMapping_lookup (edit_key profile []) modelId) as [_ ->].
Qed.

(** X13: a model the catalogue does not know is built all the same
    and billed at rate zero throughout; a model the catalogue knows is
    billed at the catalogue's rates, a missing cache-write rate falling
    back on the catalogue's input rate. *)
Theorem toModel_rates (profile : ProviderProfile) (modelsInfo : gmap jsstring ModelInfo)
    (modelId : jsstring) :
  let model := toModel profile modelsInfo modelId in
  (modelsInfo !! modelId = None →
   inputRate model = 0%float ∧ outputRate model = 0%float
   ∧ cacheWriteRate model = 0%float ∧ cacheReadRate model = 0%float)
  ∧ (∀ info, modelsInfo !! modelId = Some info →
       inputRate model = default 0%float (info_inputCostPerToken info)
       ∧ outputRate model = default 0%float (info_outputCostPerToken info)
       ∧ cacheWriteRate model
         = default (default 0%float (info_inputCostPerToken info))
                   (info_cacheWriteInputTokenCost info)
       ∧ cacheReadRate model = default 0%float (info_cacheReadInputTokenCost info)).
Proof.
  cbv zeta. unfold inputRate, outputRate, cacheWriteRate, cacheReadRate, inputRate, toModel.
  cbn [inputCostPerToken outputCostPerToken cacheWriteInputTokenCost cacheReadInputTokenCost].
  split.
  - by intros ->.
  - intros [[i|] [o|] [w|] [r|]] ->; done.
Qed.


(** ** The earlier revision against the current one *)

Lemma loadMiniMaxModelsStrict_keyed profile modelsInfo settings :
  isMiniMaxProvider (provider profile) = true →
  has_key profile settings = true →
  loadMiniMaxModelsStrict profile modelsInfo settings
  = try_catch
      (response ← fetch MINIMAX_MODELS_ENDPOINT (models_request_headers profile settings);
       if negb (ok response)
       then
         body ← await (text response);
         mret {| strict_models := [];
                 strict_success := false;
                 strict_error :=
                   Some (js "MiniMax models API response failed: "
                         ++ number_to_string (status response) ++ js " "
                         ++ statusText response ++ js " " ++ body) |}
       else
         data ← await (json response);
         models ← strict_models_of profile modelsInfo data;
         mret {| strict_models := models; strict_success := true; strict_error := None |})
      (λ error,
         text ← strict_error_text error;
         mret {| strict_models := []; strict_success := false; strict_error := text |}).
Proof.
  intros Hguard Hkey. unfold loadMiniMaxModelsStrict.
  rewrite Hguard. cbn [negb]. rewrite str_truthy_str_or.
  unfold has_key, hasMiniMaxEnvVars in Hkey. by rewrite <- negb_orb, Hkey.
Qed.

Lemma mapM_cons {A B} (f : A → M B) (x : A) (l : list A) :
  mapM f (x :: l) = (y ← f x; k ← mapM f l; mret (y :: k)).
Proof. reflexivity. Qed.



Lemma mapM_strict_model_pure profile modelsInfo entries :
  ∃ completion,
    mapM (strict_model profile modelsInfo) entries = ([], completion)
    ∧ ∀ e, completion = Throw e → ∃ message, e = ThrownError message.
Proof.
  induction entries as [|entry entries (completion & Hrun & Hthrow)].
  - eexists. split; [reflexivity|done].
  - rewrite mapM_cons, Hrun.
    destruct entry; destruct completion as [built|e];
      eexists; (split; [reflexivity|]); intros e' [= <-]; eauto.
Qed.

Lemma strict_models_of_pure profile modelsInfo data :
  ∃ completion,
    strict_models_of profile modelsInfo data = ([], completion)
    ∧ ∀ e, completion = Throw e → ∃ message, e = ThrownError message.
Proof.
  unfold strict_models_of.
  destruct data as [| | | | |members]; try by (eexists; split; [reflexivity|]; intros ? [=]; eauto).
  cbn [prop].
  destruct (member (js "data") members) as [[| | | |items|]|];
    try by (eexists; split; [reflexivity|]; intros ? [=]; eauto).
  apply mapM_strict_model_pure.
Qed.

(** X14: the earlier revision, past its guards, sends the same one
    request and logs nothing; when it returns, success comes without
    an error text and failure without models; the one thing it lets
    escape is what [JSON.stringify] throws on a thrown value that is
    neither a string nor an [Error]. *)
Theorem loadMiniMaxModelsStrict_outcomes profile modelsInfo settings :
  isMiniMaxProvider (provider profile) = true →
  has_key profile settings = true →
  ∃ completion,
    loadMiniMaxModelsStrict profile modelsInfo settings
    = ([discovery_request profile settings], completion)
    ∧ match completion with
      | Return response =>
          if strict_success response
          then strict_error response = None
          else strict_models response = []
      | Throw e => e = stringify_failure
      end.
Proof.
  intros Hguard Hkey. rewrite loadMiniMaxModelsStrict_keyed by done.
  unfold discovery_request. rewrite <- models_request_headers_key.
  set (handler := λ error : Thrown, _).
  assert (Hcatch : ∀ e,
    ∃ completion,
      handler e = ([], completion)
      ∧ match completion with
        | Return response =>
            if strict_success response
            then strict_error response = None
            else strict_models response = []
        | Throw e => e = stringify_failure
        end).
  { intros [s|message|[| |s] to_string]; eexists; (split; [reflexivity|done]). }
  clearbody handler.
  unfold fetch, try_catch, await, mbind, M_bind, mret, M_ret. cbn [fst snd].
  destruct (network _ _) as [r|e]; cbn [fst snd].
  - destruct (ok r); cbn [negb].
    + destruct (json r) as [data|e]; cbn [fst snd].
      * destruct (strict_models_of_pure profile modelsInfo data)
          as (completion & Hrun & Hthrow).
        rewrite Hrun. cbn [fst snd].
        destruct completion as [built|e]; cbn [fst snd].
        -- eexists. split; [reflexivity|done].
        -- destruct (Hthrow e eq_refl) as [message ->].
           destruct (Hcatch (ThrownError message)) as (completion & -> & Hshape).
           cbn [fst snd app]. by exists completion.
      * destruct (Hcatch e) as (completion & -> & Hshape). cbn [fst snd app].
        by exists completion.
    + destruct (text r) as [body|e]; cbn [fst snd].
      * eexists. split; [reflexivity|done].
      * destruct (Hcatch e) as (completion & -> & Hshape). cbn [fst snd app].
        by exists completion.
  - destruct (Hcatch e) as (completion & -> & Hshape). cbn [fst snd app].
    by exists completion.
Qed.


Lemma documented_entries_agree profile modelsInfo entries :
  (∀ s, property_key (Some (JString s)) = s) →
  Forall documented_entry entries →
  mapM (strict_model profile modelsInfo) entries
  = ([], Return (map as_unchecked (map (toModel profile modelsInfo) (model_ids entries))))
  ∧ length (model_ids entries) = length entries.
Proof.
  intros Hkey. induction 1 as [|entry entries (members & c & s & -> & Hid) _ [IH Hlen]].
  - done.
  - rewrite mapM_cons, model_ids_cons, IH. cbn [remote_model_id prop strict_model].
    rewrite Hid. cbn [coalesce length]. rewrite Hlen. split; [|done].
    unfold mbind, M_bind, mret, M_ret. cbn [fst snd app map].
    rewrite Hkey. reflexivity.
Qed.

(** X16: on a list of the documented shape (objects with a string
    [id] that is not empty, at least one of them) the two revisions
    agree: the same request, no warning, [success = true] and the same
    models, one per entry, in order. *)
Theorem revisions_agree_on_documented_lists profile modelsInfo settings r data entries :
  (∀ s, property_key (Some (JString s)) = s) →
  isMiniMaxProvider (provider profile) = true →
  has_key profile settings = true →
  network MINIMAX_MODELS_ENDPOINT (models_request_headers profile settings) = Resolves r →
  ok r = true →
  json r = Return data →
  prop data (js "data") = Some (JArray entries) →
  entries ≠ [] →
  Forall documented_entry entries →
  ∃ found,
    loadMiniMaxModels profile modelsInfo settings
    = ([discovery_request profile settings],
       Return {| models := found; success := true |})
    ∧ loadMiniMaxModelsStrict profile modelsInfo settings
      = ([discovery_request profile settings],
         Return {| strict_models := map as_unchecked found;
                   strict_success := true;
                   strict_error := None |})
    ∧ length found = length entries.
Proof.
  intros Hpk Hguard Hkey Hnet Hok Hjson Hdata Hne Hentries.
  destruct (documented_entries_agree profile modelsInfo entries Hpk Hentries)
    as [Hstrict Hlen].
  exists (map (toModel profile modelsInfo) (model_ids entries)).
  unfold discovery_request. rewrite <- models_request_headers_key.
  split_and!.
  - rewrite <- (remote_models_data _ _ Hdata).
    apply (loadMiniMaxModels_parsed _ _ _ r data); [done..|].
    rewrite (remote_models_data _ _ Hdata). intros Hnil. rewrite Hnil in Hlen.
    by destruct entries.
  - rewrite loadMiniMaxModelsStrict_keyed by done.
    unfold fetch, try_catch, await, mbind, M_bind. cbn [fst snd].
    rewrite Hnet, Hok, Hjson. cbn [negb fst snd].
    unfold strict_models_of. destruct data; try done. cbn [prop] in *.
    rewrite Hdata, Hstrict. reflexivity.
  - by rewrite length_map.
Qed.

(** X17: what the earlier revision reports as a failure, the current
    one covers with the static list.  For a response outside 200-299
    whose body can be read, and for a [fetch] that rejects with an
    [Error], the earlier revision returns [success = false], no models
    and an error text (status, status text and body, or the message);
    the current one returns [success = true] with the static models
    and logs a warning. *)
Theorem failures_reported_then_covered profile modelsInfo settings :
  isMiniMaxProvider (provider profile) = true →
  has_key profile settings = true →
  (∀ r body,
     network MINIMAX_MODELS_ENDPOINT (models_request_headers profile settings) = Resolves r →
     ok r = false →
     text r = Return body →
     loadMiniMaxModelsStrict profile modelsInfo settings
     = ([discovery_request profile settings],
        Return {| strict_models := [];
                  strict_success := false;
                  strict_error :=
                    Some (js "MiniMax models API response failed: "
                          ++ number_to_string (status r) ++ js " "
                          ++ statusText r ++ js " " ++ body) |})
     ∧ ∃ warning,
         loadMiniMaxModels profile modelsInfo settings
         = ([discovery_request profile settings; EvWarn warning],
            Return (fallback_response profile modelsInfo)))
  ∧ (∀ message,
       network MINIMAX_MODELS_ENDPOINT (models_request_headers profile settings)
       = Rejects (ThrownError message) →
       loadMiniMaxModelsStrict profile modelsInfo settings
       = ([discovery_request profile settings],
          Return {| strict_models := [];
                    strict_success := false;
                    strict_error := Some message |})
       ∧ ∃ warning,
           loadMiniMaxModels profile modelsInfo settings
           = ([discovery_request profile settings; EvWarn warning],
              Return (fallback_response profile modelsInfo))).
Proof.
  intros Hguard Hkey. unfold discovery_request. rewrite <- models_request_headers_key.
  split.
  - intros r body Hnet Hok Htext. split.
    + rewrite loadMiniMaxModelsStrict_keyed by done.
      unfold fetch, try_catch, await, mbind, M_bind. cbn [fst snd].
      rewrite Hnet, Hok, Htext. reflexivity.
    + eexists. apply loadMiniMaxModels_fallback_on; [done..|]. rewrite Hnet.
      by apply failure_status.
  - intros message Hnet. split.
    + rewrite loadMiniMaxModelsStrict_keyed by done.
      unfold fetch, try_catch, await, mbind, M_bind. cbn [fst snd].
      rewrite Hnet. reflexivity.
    + eexists. apply loadMiniMaxModels_fallback_on; [done..|]. rewrite Hnet.
      by apply failure_network.
Qed.


(** ** The logged reason, from the reason alone *)

Lemma has_gt_not_elem s : has_gt s = false ↔ GT ∉ s.
Proof.
  induction s as [|c t IH]; [split; [intros _; apply not_elem_of_nil|done]|].
  rewrite has_gt_cons, orb_false_iff, not_elem_of_cons, IH, N.eqb_neq.
  split; intros [Hc Ht]; (split; [congruence|done]).
Qed.

(** The scan of [strip_tags] does what [untagged] says... *)
Lemma untagged_strip_tags s : untagged s (strip_tags s).
Proof.
  funelim (strip_tags s); simp strip_tags.
  - constructor.
  - apply untagged_unit; [by apply N.eqb_neq|done].
  - clear -e e0 H. apply N.eqb_eq in e as ->.
    assert (∃ inside, t = inside ++ GT :: rest ∧ GT ∉ inside) as (inside & -> & Hinside).
    { clear -e0. revert rest e0. induction t as [|d t IH]; intros rest; cbn [after_gt]; [done|].
      destruct (d =? GT) eqn:Hd.
      - intros [= ->]. apply N.eqb_eq in Hd as ->. exists []. split; [done|].
        apply not_elem_of_nil.
      - intros (inside & -> & Hinside)%IH. exists (d :: inside). split; [done|].
        apply not_elem_of_cons. split; [|done]. apply N.eqb_neq in Hd. congruence. }
    by apply untagged_tag.
  - clear -e e0 H. apply N.eqb_eq in e as ->. apply untagged_unclosed; [|done].
    by apply has_gt_not_elem, after_gt_None.
Qed.

Lemma first_gt_unique (inside inside' rest rest' : jsstring) :
  GT ∉ inside → GT ∉ inside' →
  inside ++ GT :: rest = inside' ++ GT :: rest' →
  inside = inside' ∧ rest = rest'.
Proof.
  revert inside'; induction inside as [|c inside IH]; intros [|c' inside'] Hin Hin' Heq;
    cbn [app] in Heq.
  - by injection Heq as ->.
  - injection Heq as <- _. exfalso. apply Hin'. apply list_elem_of_here.
  - injection Heq as -> _. exfalso. apply Hin. apply list_elem_of_here.
  - injection Heq as -> Heq.
    apply not_elem_of_cons in Hin as [_ Hin]. apply not_elem_of_cons in Hin' as [_ Hin'].
    by destruct (IH inside' Hin Hin' Heq) as [-> ->].
Qed.

(** ... and [untagged] leaves no choice. *)
Lemma untagged_functional s out out' : untagged s out → untagged s out' → out = out'.
Proof.
  intros Hout. revert out'.
  induction Hout as [|inside rest out Hinside _ IH|rest out Hrest _ IH|c rest out Hc _ IH];
    intros out' Hout'; inversion Hout' as [|inside' rest' o' Hinside' Ho' Heq|rest' o' Hrest' Ho'|c' rest' o' Hc' Ho'];
    subst; try done.
  - destruct (first_gt_unique _ _ _ _ Hinside Hinside' (eq_sym Heq)) as [<- <-].
    f_equal. by apply IH.
  - exfalso. apply Hrest'. apply elem_of_app. right. apply list_elem_of_here.
  - exfalso. apply Hrest. apply elem_of_app. right. apply list_elem_of_here.
  - f_equal. by apply IH.
  - f_equal. by apply IH.
Qed.

Lemma starts_word_words s : starts_word s = true → ∃ w rest, words s = (w : jsstring) :: rest.
Proof.
  destruct s as [|c t]; [done|]. cbn [starts_word words].
  intros ->%negb_true_iff.
  destruct (starts_word t); [destruct (words t)|]; eauto.
Qed.

Lemma words_cons c t :
  words (c :: t)
  = if is_space c then words t
    else if starts_word t
         then match words t with
              | w :: rest => (c :: w) :: rest
              | [] => [[c]]
              end
         else [c] :: words t.
Proof. reflexivity. Qed.

Lemma words_collapse_spaces b s : words (collapse_spaces b s) = words s.
Proof.
  revert b; induction s as [|c t IH]; intros b; cbn [collapse_spaces]; [done|].
  destruct (is_space c) eqn:Hc.
  - cbn [words]. rewrite Hc. destruct b; [apply IH|].
    cbn [words]. change (is_space SPACE) with true. cbv iota. apply IH.
  - cbn [words]. rewrite Hc, IH.
    assert (starts_word (collapse_spaces false t) = starts_word t) as ->; [|done].
    destruct t as [|d t]; [done|]. cbn [collapse_spaces].
    destruct (is_space d) eqn:Hd; cbn [starts_word]; [|done]. by rewrite Hd.
Qed.

Lemma words_trim_start s : words (trim_start s) = words s.
Proof.
  induction s as [|c t IH]; [done|]. cbn [trim_start].
  destruct (is_space c) eqn:Hc; [|done]. cbn [words]. by rewrite Hc.
Qed.

Lemma words_trim_end s :
  words (trim_end s) = words s ∧ starts_word (trim_end s) = starts_word s.
Proof.
  induction s as [|c t [IHwords IHstart]]; [done|]. cbn [trim_end].
  destruct (trim_end t) as [|d r] eqn:Hend.
  - destruct (is_space c) eqn:Hc; cbn [words starts_word]; rewrite Hc.
    + by rewrite <- IHwords.
    + by rewrite <- IHwords, <- IHstart.
  - rewrite (words_cons c (d :: r)), (words_cons c t), IHwords, IHstart.
    by cbn [starts_word].
Qed.

Lemma join_push sep c (w : jsstring) rest :
  join sep ((c :: w) :: rest) = c :: join sep (w :: rest).
Proof. by destruct rest. Qed.

(** A text in which whitespace is collapsed and trimmed is its words
    with one space between them. *)
Lemma collapsed_join_words b s :
  spaced b s = true → ends_clean s = true → join [SPACE] (words s) = trim_start s.
Proof.
  revert b; induction s as [|c t IH]; intros b Hspaced Hends; [done|].
  rewrite words_cons. cbn [spaced] in Hspaced. cbn [trim_start].
  destruct (is_space c) eqn:Hc.
  - apply andb_true_iff in Hspaced as [[->%N.eqb_eq _]%andb_true_iff Ht].
    destruct t as [|d t]; [done|]. apply (IH true); [done|].
    unfold ends_clean in *. by rewrite last_cons_cons in Hends.
  - destruct t as [|d t]; [done|].
    assert (ends_clean (d :: t) = true) as Hends'.
    { unfold ends_clean in *. by rewrite last_cons_cons in Hends. }
    pose proof (IH false Hspaced Hends') as IH'.
    destruct (starts_word (d :: t)) eqn:Hstart.
    + destruct (starts_word_words _ Hstart) as (w & rest & Hwords).
      rewrite Hwords in IH' |- *. rewrite join_push, IH'. f_equal.
      cbn [starts_word] in Hstart. apply negb_true_iff in Hstart.
      cbn [trim_start]. by rewrite Hstart.
    + cbn [starts_word] in Hstart. apply negb_false_iff in Hstart.
      cbn [spaced] in Hspaced. rewrite Hstart in Hspaced.
      apply andb_true_iff in Hspaced as [[->%N.eqb_eq _]%andb_true_iff Ht].
      destruct t as [|d' t]; [done|].
      assert (is_space d' = false) as Hd'.
      { cbn [spaced] in Ht. destruct (is_space d'); [|done]. by rewrite andb_false_r in Ht. }
      destruct (starts_word_words (d' :: t)) as (w & rest & Hwords).
      { cbn [starts_word]. by rewrite Hd'. }
      assert (words (SPACE :: d' :: t) = w :: rest) as Hwords'.
      { rewrite words_cons. by change (is_space SPACE) with true. }
      rewrite Hwords' in IH' |- *.
      change (join [SPACE] ([c] :: w :: rest)) with (c :: SPACE :: join [SPACE] (w :: rest)).
      rewrite IH'. cbn [trim_start]. change (is_space SPACE) with true. cbv iota.
      by rewrite Hd'.
Qed.

(** [sanitizeReason], said from the reason alone. *)
Lemma sanitizeReason_words reason text :
  untagged reason text → sanitizeReason reason = join [SPACE] (words text).
Proof.
  intros Htext. rewrite (untagged_functional _ _ _ Htext (untagged_strip_tags reason)).
  pose proof (collapsed_sanitizeReason reason) as [Hspaced Hends]%andb_true_iff.
  rewrite <- (trim_start_spaced (sanitizeReason reason)) by done.
  rewrite <- (collapsed_join_words true) by done.
  unfold sanitizeReason, trim.
  by rewrite (proj1 (words_trim_end _)), words_trim_start, words_collapse_spaces.
Qed.

Lemma words_not_empty s : Forall (λ w, w ≠ []) (words s).
Proof.
  induction s as [|c t IH]; [constructor|]. cbn [words].
  destruct (is_space c); [done|].
  destruct (starts_word t); [destruct IH|]; by repeat constructor.
Qed.

Lemma logged_reason_shown reason text :
  untagged reason text → logged_reason reason = reason_shown text.
Proof.
  intros Htext. unfold logged_reason, reason_shown.
  rewrite (sanitizeReason_words _ _ Htext).
  pose proof (words_not_empty text) as Hwords.
  destruct (words text) as [|w rest]; [done|].
  apply Forall_cons_1 in Hwords as [Hw _]. destruct w as [|c w]; [done|].
  by rewrite join_push.
Qed.

Lemma warning_message_text shown :
  warning_message shown
  = js "MiniMax models API unavailable (" ++ shown
    ++ js "). Falling back to static MiniMax model list: MiniMax-M2, MiniMax-M2-Stable".
Proof. reflexivity. Qed.

(** The words are the text without its whitespace: no word is empty,
    no word holds whitespace, and together they are the code units of
    the text that are not whitespace. *)
Lemma words_visible s :
  Forall (λ w, w ≠ [] ∧ Forall (λ c, is_space c = false) w) (words s)
  ∧ concat (words s) = visible s.
Proof.
  unfold visible. induction s as [|c t [IHwords IHvisible]]; [by split; [constructor|]|].
  rewrite words_cons. cbn [List.filter]. destruct (is_space c) eqn:Hc; cbn [negb]; [done|].
  destruct (starts_word t) eqn:Hstart.
  - destruct (starts_word_words _ Hstart) as (w & rest & Hwords).
    rewrite Hwords in IHwords, IHvisible |- *.
    apply Forall_cons_1 in IHwords as [[_ Hw] Hrest].
    split; [|cbn [concat app] in *; by f_equal].
    constructor; [|done]. split; [done|]. by constructor.
  - split; [|cbn [concat app]; by f_equal].
    constructor; [|done]. split; [done|]. by constructor.
Qed.

Lemma catchable_reason e : catchable e ↔ is_Some (thrown_reason e).
Proof.
  split.
  - intros []; cbn [thrown_reason]; eauto.
  - destruct e as [s|message|[| |s] [s'|]]; cbn [thrown_reason];
      intros [reason H]; try discriminate H; constructor.
Qed.

(** Each outcome either fails with a reason or parses into a payload
    with a usable identifier. *)
Lemma http_outcome_cases outcome :
  http_outcome outcome →
  (∃ reason, discovery_failure outcome reason)
  ∨ (∃ r data, outcome = Resolves r ∧ ok r = true ∧ json r = Return data
               ∧ model_ids (remote_models data) ≠ []).
Proof.
  intros [e He|r Hok|r e Hok Hjson He|r data Hok Hjson].
  - apply catchable_reason in He as [reason He]. left. eexists. by apply failure_network.
  - left. eexists. by apply failure_status.
  - apply catchable_reason in He as [reason He]. left. eexists. by eapply failure_parse.
  - destruct (model_ids (remote_models data)) as [|modelId ids] eqn:Hids.
    + left. eexists. by eapply failure_empty.
    + right. exists r, data. by rewrite Hids.
Qed.

(** ** The fallback, in full *)

(** C1: with a key, when the response is outside 200-299, or [fetch]
    or the parsing of the body throws, or the payload holds no usable
    identifier, [loadMiniMaxModels] returns [success = true] with the
    models built from the two static identifiers, in that order and
    under the profile's id, after one request and one warning, and
    throws nothing.  The warning is the fixed sentence around the
    reason as it is shown: the reason with every tag replaced by a
    space ([untagged], which fixes the text), cut into its words, the
    words joined by single spaces, or ["Unknown error"] when no word
    is left.  That is what [sanitizeReason] computes, and no tag is
    left in it and its whitespace is collapsed and trimmed.  (A thrown
    value counts when the [catch] clause gets a reason out of it, as
    it does from every [Error] and every string.) *)
Theorem loadMiniMaxModels_falls_back profile modelsInfo settings reason :
  isMiniMaxProvider (provider profile) = true →
  has_key profile settings = true →
  discovery_failure
    (network MINIMAX_MODELS_ENDPOINT (models_request_headers profile settings)) reason →
  ∃ response text,
    loadMiniMaxModels profile modelsInfo settings
    = ([EvFetch MINIMAX_MODELS_ENDPOINT (models_request_headers profile settings);
        EvWarn (js "MiniMax models API unavailable (" ++ reason_shown text
                ++ js "). Falling back to static MiniMax model list: MiniMax-M2, MiniMax-M2-Stable")],
       Return response)
    ∧ success response = true
    ∧ models response = map (toModel profile modelsInfo) KNOWN_MINIMAX_MODELS
    ∧ map model_id (models response) = [js "MiniMax-M2"; js "MiniMax-M2-Stable"]
    ∧ map model_providerId (models response) = [profile_id profile; profile_id profile]
    ∧ untagged reason text
    ∧ (∀ other, untagged reason other → other = text)
    ∧ warning_message (logged_reason reason)
      = js "MiniMax models API unavailable (" ++ reason_shown text
        ++ js "). Falling back to static MiniMax model list: MiniMax-M2, MiniMax-M2-Stable"
    ∧ logged_reason reason = reason_shown text
    ∧ logged_reason reason
      = match sanitizeReason reason with
        | [] => js "Unknown error"
        | sanitized => sanitized
        end
    ∧ tag_free (logged_reason reason)
    ∧ whitespace_collapsed (logged_reason reason).
Proof.
  intros Hguard Hkey Hfail.
  exists (fallback_response profile modelsInfo), (strip_tags reason).
  pose proof (untagged_strip_tags reason) as Htext.
  pose proof (logged_reason_shown _ _ Htext) as Hshown.
  split.
  { rewrite <- Hshown, <- warning_message_text. by apply loadMiniMaxModels_fallback_on. }
  split_and!.
  - reflexivity.
  - reflexivity.
  - reflexivity.
  - reflexivity.
  - exact Htext.
  - intros other Hother. exact (untagged_functional _ _ _ Hother Htext).
  - by rewrite <- Hshown, warning_message_text.
  - exact Hshown.
  - unfold logged_reason. by destruct (sanitizeReason reason).
  - apply logged_reason_sanitized.
  - apply logged_reason_sanitized.
Qed.

(** C8: with the type guard passed and a key found, whatever the HTTP
    interaction comes to ([fetch] rejects, the status is outside
    200-299, the body does not parse, the payload is parsed with or
    without a usable identifier), [loadMiniMaxModels] returns, after
    its one request, with [success = true] and at least one model: it
    neither throws nor answers [success = false].  ([fetch] and
    [json()] reject with a [catchable] value, as every [Error] and
    every string is.) *)
Theorem loadMiniMaxModels_always_succeeds profile modelsInfo settings :
  isMiniMaxProvider (provider profile) = true →
  has_key profile settings = true →
  http_outcome
    (network MINIMAX_MODELS_ENDPOINT (models_request_headers profile settings)) →
  ∃ events response,
    loadMiniMaxModels profile modelsInfo settings = (events, Return response)
    ∧ success response = true
    ∧ models response ≠ []
    ∧ ∃ warnings,
        events = EvFetch MINIMAX_MODELS_ENDPOINT (models_request_headers profile settings)
                 :: warnings.
Proof.
  intros Hguard Hkey Houtcome.
  destruct (http_outcome_cases _ Houtcome)
    as [[reason Hfail]|(r & data & Hnet & Hok & Hjson & Hids)].
  - eexists _, _. split; [by apply loadMiniMaxModels_fallback_on|].
    split_and!; [done|done|by eexists].
  - eexists _, _. split; [by eapply loadMiniMaxModels_parsed|].
    split_and!; [done| |by eexists].
    cbn [models]. by destruct (model_ids (remote_models data)).
Qed.

End Provider.

(** ** The statements at sample inputs *)

Example sanitizeReason_html_page :
  logged_reason (status_reason server_error) = js "500 Internal Server Error - Bad gateway".
Proof. reflexivity. Qed.

Example sanitizeReason_only_tags :
  sanitizeReason (js " <br/> ") = [] ∧ logged_reason (js " <br/> ") = js "Unknown error".
Proof. split; reflexivity. Qed.

(** A 500 with an HTML page: the static list, and a warning that
    shows the status line and the words of the page, without its
    tags. *)
Lemma loadMiniMaxModels_falls_back_on_500 :
  ∃ response text,
    loadMiniMaxModels unit named_minimax empty_environment (λ _ _, Resolves server_error)
      keyed_profile ∅ ()
    = ([EvFetch MINIMAX_MODELS_ENDPOINT
          [(js "x-api-key", js "sk-test"); (js "anthropic-version", js "2023-06-01")];
        EvWarn (js "MiniMax models API unavailable (500 Internal Server Error - Bad gateway). Falling back to static MiniMax model list: MiniMax-M2, MiniMax-M2-Stable")],
       Return response)
    ∧ success response = true
    ∧ models response = map (toModel keyed_profile ∅) KNOWN_MINIMAX_MODELS
    ∧ map model_id (models response) = [js "MiniMax-M2"; js "MiniMax-M2-Stable"]
    ∧ map model_providerId (models response) = [js "mm"; js "mm"]
    ∧ untagged (status_reason server_error) text
    ∧ text = js "500 Internal Server Error -    Bad   gateway   "
    ∧ reason_shown text = js "500 Internal Server Error - Bad gateway"
    ∧ logged_reason (status_reason server_error) = reason_shown text
    ∧ tag_free (logged_reason (status_reason server_error))
    ∧ whitespace_collapsed (logged_reason (status_reason server_error)).
Proof.
  destruct (loadMiniMaxModels_falls_back unit named_minimax empty_environment
              (λ _ _, Resolves server_error) keyed_profile ∅ ()
              (status_reason server_error))
    as (response & text & Hrun & Hsuccess & Hmodels & Hids & Hprovider & Htext
        & Hunique & _ & Hshown & _ & Hfree & Hspace).
  - reflexivity.
  - reflexivity.
  - apply failure_status. reflexivity.
  - assert (js "500 Internal Server Error -    Bad   gateway   " = text) as <-.
    { apply Hunique. apply (untagged_strip_tags (status_reason server_error)). }
    eexists _, _. split; [exact Hrun|]. split_and!; try done.
Defined.

(** A 200 with an empty list falls back as well. *)
Example loadMiniMaxModels_empty_list :
  loadMiniMaxModels unit named_minimax empty_environment
    (λ _ _, Resolves (json_response (data_body []))) keyed_profile ∅ ()
  = ([EvFetch MINIMAX_MODELS_ENDPOINT
        [(js "x-api-key", js "sk-test"); (js "anthropic-version", js "2023-06-01")];
      EvWarn (warning_message (js "Empty or unsupported MiniMax models response payload"))],
     Return (fallback_response keyed_profile ∅)).
Proof. reflexivity. Qed.

Lemma mixed_entries_surviving :
  surviving_identifiers mixed_entries [js "foo"; js "bar"; js "baz"].
Proof.
  unfold mixed_entries.
  apply surviving_keep; [by apply identifier_id|done|].
  apply surviving_keep; [by apply identifier_string|done|].
  apply surviving_keep; [apply identifier_model; [intros []|reflexivity]|done|].
  apply surviving_drop; [|apply surviving_nil].
  intros s Hs. inversion Hs; discriminate.
Defined.

(** The body [{"data":[{"id":"foo"}, "bar", {"model":"baz"}, {"nope":1}]}]
    gives the models [foo], [bar], [baz], in that order. *)
Lemma loadMiniMaxModels_parses_mixed_entries :
  ∃ response,
    loadMiniMaxModels unit named_minimax empty_environment
      (λ _ _, Resolves (json_response (data_body mixed_entries))) keyed_profile ∅ ()
    = ([EvFetch MINIMAX_MODELS_ENDPOINT
          [(js "x-api-key", js "sk-test"); (js "anthropic-version", js "2023-06-01")]],
       Return response)
    ∧ success response = true
    ∧ models response = map (toModel keyed_profile ∅) [js "foo"; js "bar"; js "baz"]
    ∧ map model_id (models response) = [js "foo"; js "bar"; js "baz"].
Proof.
  apply (loadMiniMaxModels_parses_entries unit named_minimax empty_environment
           (λ _ _, Resolves (json_response (data_body mixed_entries))) keyed_profile ∅ ()
           (json_response (data_body mixed_entries)) (data_body mixed_entries)
           mixed_entries).
  - reflexivity.
  - reflexivity.
  - reflexivity.
  - reflexivity.
  - reflexivity.
  - reflexivity.
  - exact mixed_entries_surviving.
  - discriminate.
Defined.

(** An entry with a numeric [id] and a string [model]: read as the
    specification words it, the entry is an object with a [model]
    string field and yields [baz]; the code stops at the [id], finds
    no string there and drops the entry, and discovery falls back to
    the static list. *)
Lemma numeric_id_hides_model_field :
  spec_model_ids [numeric_id_entry] = [js "baz"]
  ∧ model_ids [numeric_id_entry] = []
  ∧ ∃ events response,
      loadMiniMaxModels unit named_minimax empty_environment
        (λ _ _, Resolves (json_response (data_body [numeric_id_entry]))) keyed_profile ∅ ()
      = (events, Return response)
      ∧ map model_id (models response) = [js "MiniMax-M2"; js "MiniMax-M2-Stable"]
      ∧ map model_id (models response) ≠ spec_model_ids [numeric_id_entry].
Proof.
  split_and!; [reflexivity..|].
  eexists _, _. split_and!; [reflexivity|reflexivity|discriminate].
Qed.

(** Without a key nothing is sent; with an explicit key, that key is
    on the request even when the environment has one too. *)
Lemma loadMiniMaxModels_key_check_samples :
  loadMiniMaxModels unit named_minimax empty_environment (λ _ _, Resolves server_error)
    keyless_profile ∅ ()
  = ([], Return {| models := []; success := false |})
  ∧ ∃ events completion,
      loadMiniMaxModels unit named_minimax
        (λ _ _ _, Some {| value := js "env-key"; source := js "env" |})
        (λ _ _, Resolves server_error) keyed_profile ∅ ()
      = (EvFetch MINIMAX_MODELS_ENDPOINT
           [(js "x-api-key", js "sk-test"); (js "anthropic-version", js "2023-06-01")]
         :: events, completion).
Proof.
  split.
  - apply (loadMiniMaxModels_key_check unit named_minimax empty_environment
             (λ _ _, Resolves server_error) keyless_profile ∅ ()); reflexivity.
  - apply (loadMiniMaxModels_key_check unit named_minimax
             (λ _ _ _, Some {| value := js "env-key"; source := js "env" |})
             (λ _ _, Resolves server_error) keyed_profile ∅ ());
      [reflexivity|reflexivity|discriminate].
Defined.

(** The discovery succeeds whether the host cannot be reached, the
    server answers 500, the body is a page, the list is empty or the
    list has entries. *)
Lemma loadMiniMaxModels_always_succeeds_samples :
  Forall (λ outcome,
    ∃ events response,
      loadMiniMaxModels unit named_minimax empty_environment (λ _ _, outcome)
        keyed_profile ∅ ()
      = (events, Return response)
      ∧ success response = true
      ∧ models response ≠ []
      ∧ ∃ warnings,
          events = EvFetch MINIMAX_MODELS_ENDPOINT
                     [(js "x-api-key", js "sk-test");
                      (js "anthropic-version", js "2023-06-01")]
                   :: warnings)
    [fetch_failed;
     Resolves server_error;
     Resolves html_page;
     Resolves (json_response (data_body []));
     Resolves (json_response (data_body mixed_entries))].
Proof.
  repeat apply Forall_cons_2; [..|apply Forall_nil_2].
  - apply (loadMiniMaxModels_always_succeeds unit named_minimax empty_environment
             (λ _ _, fetch_failed) keyed_profile ∅ ()); [reflexivity|reflexivity|].
    apply outcome_rejected, catchable_error.
  - apply (loadMiniMaxModels_always_succeeds unit named_minimax empty_environment
             (λ _ _, Resolves server_error) keyed_profile ∅ ()); [reflexivity|reflexivity|].
    apply outcome_status. reflexivity.
  - apply (loadMiniMaxModels_always_succeeds unit named_minimax empty_environment
             (λ _ _, Resolves html_page) keyed_profile ∅ ()); [reflexivity|reflexivity|].
    eapply outcome_unparsed; [reflexivity|reflexivity|apply catchable_error].
  - apply (loadMiniMaxModels_always_succeeds unit named_minimax empty_environment
             (λ _ _, Resolves (json_response (data_body []))) keyed_profile ∅ ());
      [reflexivity|reflexivity|].
    eapply outcome_parsed; reflexivity.
  - apply (loadMiniMaxModels_always_succeeds unit named_minimax empty_environment
             (λ _ _, Resolves (json_response (data_body mixed_entries))) keyed_profile ∅ ());
      [reflexivity|reflexivity|].
    eapply outcome_parsed; reflexivity.
Defined.

(** What the five samples answer: the static list four times, the
    parsed list once. *)
Example loadMiniMaxModels_sample_answers :
  map (λ outcome,
         match loadMiniMaxModels unit named_minimax empty_environment (λ _ _, outcome)
                 keyed_profile ∅ () with
         | (_, Return response) => Some (success response, map model_id (models response))
         | (_, Throw _) => None
         end)
    [fetch_failed;
     Resolves server_error;
     Resolves html_page;
     Resolves (json_response (data_body []));
     Resolves (json_response (data_body mixed_entries))]
  = [Some (true, [js "MiniMax-M2"; js "MiniMax-M2-Stable"]);
     Some (true, [js "MiniMax-M2"; js "MiniMax-M2-Stable"]);
     Some (true, [js "MiniMax-M2"; js "MiniMax-M2-Stable"]);
     Some (true, [js "MiniMax-M2"; js "MiniMax-M2-Stable"]);
     Some (true, [js "foo"; js "bar"; js "baz"])].
Proof. reflexivity. Qed.

(** Outside [catchable]: [undefined] is a value that neither [fetch]
    nor [json()] rejects with.  Were the [catch] clause handed it,
    [JSON.stringify] would return [undefined] without throwing,
    [reason] would be [undefined] and [reason.replace] in
    [sanitizeReason] would raise a [TypeError]. *)
Example loadMiniMaxModels_throws_on_undefined_reason :
  loadMiniMaxModels unit named_minimax empty_environment (λ _ _, rejects_with_undefined)
    keyed_profile ∅ ()
  = ([EvFetch MINIMAX_MODELS_ENDPOINT
        [(js "x-api-key", js "sk-test"); (js "anthropic-version", js "2023-06-01")]],
     Throw (ThrownError (js "Cannot read properties of undefined (reading 'replace')"))).
Proof. reflexivity. Qed.

(** The usage report of the specification's example. *)
Lemma getMiniMaxUsageReport_sample :
  let report :=
    getMiniMaxUsageReport {| task := {| agentTotalCost := 5 |} |} keyed_profile sample_model
      {| inputTokens := Some 1000%float; outputTokens := Some 200%float;
         cachedInputTokens := None |}
      (Some {| anthropic := Some {| cacheCreationInputTokens := None;
                                    cacheReadInputTokens := Some 300%float |} |}) in
  report_sentTokens report = 700%float
  ∧ report_agentTotalCost report = (5 + report_messageCost report)%float.
Proof.
  apply (getMiniMaxUsageReport_accounting {| task := {| agentTotalCost := 5 |} |}
           keyed_profile sample_model
           {| inputTokens := Some 1000%float; outputTokens := Some 200%float;
              cachedInputTokens := None |}
           (Some {| anthropic := Some {| cacheCreationInputTokens := None;
                                         cacheReadInputTokens := Some 300%float |} |}));
    reflexivity.
Defined.

(** More cache-read tokens than input tokens: the sent tokens and
    the cost go below zero. *)
Example getMiniMaxUsageReport_not_clamped :
  let report :=
    getMiniMaxUsageReport {| task := {| agentTotalCost := 5 |} |} keyed_profile sample_model
      {| inputTokens := Some 100%float; outputTokens := None; cachedInputTokens := None |}
      (Some {| anthropic := Some {| cacheCreationInputTokens := None;
                                    cacheReadInputTokens := Some 300%float |} |}) in
  report_sentTokens report = (-200)%float
  ∧ report_messageCost report = (-100)%float
  ∧ report_agentTotalCost report = (-95)%float.
Proof. split_and!; reflexivity. Qed.

(** The examples of the specification for the cost: 1000 tokens sent
    at 0.001 and 500 received at 0.002 cost 2; 100 cache-write tokens
    without a cache-write rate are billed at the input rate. *)
#[warnings="-inexact-float"]
Example calculateMiniMaxCost_samples :
  let model :=
    {| model_id := js "MiniMax-M2"; model_providerId := js "mm";
       inputCostPerToken := Some 0.001%float; outputCostPerToken := Some 0.002%float;
       cacheWriteInputTokenCost := None; cacheReadInputTokenCost := None |} in
  calculateMiniMaxCost model 1000 500 (Some 0%float) (Some 0%float) = 2%float
  ∧ calculateMiniMaxCost model 0 0 (Some 100%float) (Some 0%float) = (100 * 0.001)%float.
Proof. split; reflexivity. Qed.

(** [createMiniMaxLlm] at sample inputs: the explicit key wins over
    the project's environment, the environment serves a profile
    without a key, and without either the call throws. *)
Lemma createMiniMaxLlm_samples :
  createMiniMaxLlm unit project_environment keyed_profile sample_model () (js "/work")
  = ([], Return (client_for keyed_profile sample_model (js "sk-test")))
  ∧ createMiniMaxLlm unit project_environment keyless_profile sample_model () (js "/work")
    = ([EvDebug (js "Loaded MINIMAX_API_KEY from /work/.env")],
       Return (client_for keyless_profile sample_model (js "env-key")))
  ∧ (∃ events error,
       createMiniMaxLlm unit empty_environment keyless_profile sample_model () (js "/work")
       = (events, Throw error)).
Proof.
  split_and!.
  - apply (createMiniMaxLlm_key_resolution unit named_minimax project_environment
             (λ _ _, Resolves server_error) keyed_profile sample_model () (js "/work") ∅);
      [reflexivity|discriminate].
  - destruct (createMiniMaxLlm_key_resolution unit named_minimax project_environment
                (λ _ _, Resolves server_error) keyless_profile sample_model () (js "/work") ∅)
      as (_ & Henv & _).
    apply (Henv {| value := js "env-key"; source := js "/work/.env" |});
      [reflexivity|reflexivity|discriminate].
  - destruct (createMiniMaxLlm_key_resolution unit named_minimax empty_environment
                (λ _ _, Resolves server_error) keyless_profile sample_model () (js "/work") ∅)
      as (_ & _ & Hthrows & _).
    apply Hthrows. split; reflexivity.
Defined.

(** The empty key at sample inputs: no [ANTHROPIC_API_KEY] for aider,
    and the same discovery as without a key. *)
Lemma empty_key_samples :
  environmentVariables
    (getMiniMaxAiderMapping (with_apiKey keyed_profile (Some [])) (js "MiniMax-M2"))
    !! ANTHROPIC_API_KEY = None
  ∧ loadMiniMaxModels unit named_minimax empty_environment (λ _ _, Resolves server_error)
      (with_apiKey keyed_profile (Some [])) ∅ ()
    = loadMiniMaxModels unit named_minimax empty_environment (λ _ _, Resolves server_error)
        (with_apiKey keyed_profile None) ∅ ().
Proof.
  split.
  - apply (empty_key_counts_as_absent unit named_minimax empty_environment
             (λ _ _, Resolves server_error) keyed_profile sample_model (js "MiniMax-M2")
             ∅ () (js "/work")).
  - apply (empty_key_counts_as_absent unit named_minimax empty_environment
             (λ _ _, Resolves server_error) keyed_profile sample_model (js "MiniMax-M2")
             ∅ () (js "/work")).
    reflexivity.
Defined.

(** ** Further statements at sample inputs *)

(** A reason without a tag keeps all its text; only whitespace goes. *)
Lemma sanitizeReason_keeps_text_sample :
  visible (sanitizeReason (js "  rate   limit < 10 per  minute "))
  = visible (js "  rate   limit < 10 per  minute ").
Proof.
  destruct (sanitizeReason_keeps_text (js "  rate   limit < 10 per  minute "))
    as [_ Hkeeps].
  apply Hkeeps. apply has_tag_false_tag_free. reflexivity.
Defined.

Lemma loadMiniMaxModels_success_means_models_sample :
  (success (fallback_response keyed_profile ∅) = true
   ↔ models (fallback_response keyed_profile ∅) ≠ [])
  ∧ (success (fallback_response keyed_profile ∅) = false
     ↔ named_minimax (provider keyed_profile) = false
       ∨ has_key unit empty_environment keyed_profile () = false).
Proof.
  eapply (loadMiniMaxModels_success_means_models unit named_minimax empty_environment
            (λ _ _, Resolves server_error) keyed_profile ∅ ()).
  reflexivity.
Defined.

Lemma loadMiniMaxModels_models_of_profile_sample :
  Forall (λ model, model_providerId model = js "mm" ∧ model_id model ≠ [])
         (map (toModel keyed_profile sample_catalogue) [js "foo"; js "bar"; js "baz"]).
Proof.
  eapply (loadMiniMaxModels_models_of_profile unit named_minimax empty_environment
            (λ _ _, Resolves (json_response (data_body mixed_entries)))
            keyed_profile sample_catalogue ()
            _ {| models := map (toModel keyed_profile sample_catalogue)
                               [js "foo"; js "bar"; js "baz"];
                 success := true |}).
  reflexivity.
Defined.

Lemma hasMiniMaxEnvVars_decides_discovery_sample :
  (hasMiniMaxEnvVars unit global_environment () = true
   ↔ ∃ effectiveVar events completion,
       global_environment MINIMAX_API_KEY () None = Some effectiveVar
       ∧ loadMiniMaxModels unit named_minimax global_environment
           (λ _ _, Resolves server_error) keyless_profile ∅ ()
         = (EvFetch MINIMAX_MODELS_ENDPOINT
              [(js "x-api-key", value effectiveVar);
               (js "anthropic-version", js "2023-06-01")] :: events, completion))
  ∧ (hasMiniMaxEnvVars unit global_environment () = false
     ↔ loadMiniMaxModels unit named_minimax global_environment
         (λ _ _, Resolves server_error) keyless_profile ∅ ()
       = ([], Return {| models := []; success := false |})).
Proof.
  apply (hasMiniMaxEnvVars_decides_discovery unit named_minimax global_environment
           (λ _ _, Resolves server_error) keyless_profile ∅ ()); reflexivity.
Defined.

Lemma loadMiniMaxModels_warning_shows_status_sample :
  ∃ rest,
    loadMiniMaxModels unit named_minimax empty_environment (λ _ _, Resolves server_error)
      keyed_profile ∅ ()
    = ([discovery_request unit empty_environment keyed_profile ();
        EvWarn (warning_message (js "500" ++ rest))],
       Return (fallback_response keyed_profile ∅)).
Proof.
  apply (loadMiniMaxModels_warning_shows_status unit named_minimax empty_environment
           (λ _ _, Resolves server_error) keyed_profile ∅ () server_error); reflexivity.
Defined.

Lemma discovery_and_client_share_key_sample :
  ∃ debug events completion,
    createMiniMaxLlm unit global_environment keyless_profile sample_model () (js "/work")
    = (debug, Return (client_for keyless_profile sample_model (js "env-key")))
    ∧ loadMiniMaxModels unit named_minimax global_environment
        (λ _ _, Resolves server_error) keyless_profile ∅ ()
      = (EvFetch MINIMAX_MODELS_ENDPOINT
           [(js "x-api-key", js "env-key"); (js "anthropic-version", js "2023-06-01")]
         :: events, completion).
Proof.
  apply (discovery_and_client_share_key unit named_minimax global_environment
           (λ _ _, Resolves server_error) keyless_profile sample_model ∅ () (js "/work"));
    reflexivity.
Defined.

Lemma aider_mapping_matches_client_sample :
  environmentVariables (getMiniMaxAiderMapping keyless_profile (js "MiniMax-M2"))
    !! ANTHROPIC_API_KEY = None
  ∧ ∃ effectiveVar,
      project_environment MINIMAX_API_KEY () (Some (js "/work")) = Some effectiveVar
      ∧ js "env-key" = value effectiveVar
      ∧ [EvDebug (js "Loaded MINIMAX_API_KEY from /work/.env")]
        = [EvDebug (js "Loaded MINIMAX_API_KEY from " ++ source effectiveVar)].
Proof.
  split; [reflexivity|].
  destruct (aider_mapping_matches_client unit project_environment keyless_profile
              sample_model (js "MiniMax-M2") () (js "/work")
              [EvDebug (js "Loaded MINIMAX_API_KEY from /work/.env")]
              (client_for keyless_profile sample_model (js "env-key")) eq_refl)
    as (_ & _ & Henv).
  apply Henv. reflexivity.
Defined.

Lemma typed_key_is_used_sample :
  createMiniMaxLlm unit global_environment (edit_key keyless_profile (js "sk-typed"))
    sample_model () (js "/work")
  = ([], Return (client_for keyless_profile sample_model (js "sk-typed")))
  ∧ discovery_key unit global_environment (edit_key keyless_profile (js "sk-typed")) ()
    = js "sk-typed"
  ∧ environmentVariables
      (getMiniMaxAiderMapping (edit_key keyless_profile (js "sk-typed")) (js "MiniMax-M2"))
    !! ANTHROPIC_API_KEY = Some (js "sk-typed").
Proof.
  destruct (typed_key_is_used unit global_environment keyless_profile sample_model
              (js "MiniMax-M2") () (js "/work") (js "sk-typed"))
    as (_ & _ & Htyped & _).
  apply Htyped. discriminate.
Defined.

Lemma toModel_rates_sample :
  (inputRate (toModel keyed_profile sample_catalogue (js "foo")) = 0%float
   ∧ outputRate (toModel keyed_profile sample_catalogue (js "foo")) = 0%float
   ∧ cacheWriteRate (toModel keyed_profile sample_catalogue (js "foo")) = 0%float
   ∧ cacheReadRate (toModel keyed_profile sample_catalogue (js "foo")) = 0%float)
  ∧ cacheWriteRate (toModel keyed_profile sample_catalogue (js "MiniMax-M2")) = 0.5%float.
Proof.
  split.
  - apply (toModel_rates keyed_profile sample_catalogue (js "foo")). reflexivity.
  - destruct (toModel_rates keyed_profile sample_catalogue (js "MiniMax-M2"))
      as [_ Hknown].
    destruct (Hknown {| info_inputCostPerToken := Some 0.5%float;
                        info_outputCostPerToken := Some 2%float;
                        info_cacheWriteInputTokenCost := None;
                        info_cacheReadInputTokenCost := Some 0.125%float |} eq_refl)
      as (_ & _ & Hwrite & _).
    exact Hwrite.
Defined.

Lemma loadMiniMaxModelsStrict_outcomes_sample :
  ∃ completion,
    loadMiniMaxModelsStrict unit named_minimax empty_environment
      (λ _ _, rejects_with_undefined) sample_property_key sample_stringify_failure
      keyed_profile ∅ ()
    = ([discovery_request unit empty_environment keyed_profile ()], completion)
    ∧ match completion with
      | Return response =>
          if strict_success response
          then strict_error response = None
          else strict_models response = []
      | Throw e => e = sample_stringify_failure
      end.
Proof.
  apply (loadMiniMaxModelsStrict_outcomes unit named_minimax empty_environment
           (λ _ _, rejects_with_undefined) sample_property_key sample_stringify_failure
           keyed_profile ∅ ()); reflexivity.
Defined.



Lemma documented_entries_documented : Forall documented_entry documented_entries.
Proof.
  repeat constructor.
  - by eexists _, _, _.
  - by eexists _, _, _.
Defined.

Lemma revisions_agree_on_documented_lists_sample :
  ∃ found,
    loadMiniMaxModels unit named_minimax empty_environment
      (λ _ _, Resolves (json_response (data_body documented_entries)))
      keyed_profile sample_catalogue ()
    = ([discovery_request unit empty_environment keyed_profile ()],
       Return {| models := found; success := true |})
    ∧ loadMiniMaxModelsStrict unit named_minimax empty_environment
        (λ _ _, Resolves (json_response (data_body documented_entries)))
        sample_property_key sample_stringify_failure keyed_profile sample_catalogue ()
      = ([discovery_request unit empty_environment keyed_profile ()],
         Return {| strict_models := map as_unchecked found;
                   strict_success := true;
                   strict_error := None |})
    ∧ length found = length documented_entries.
Proof.
  apply (revisions_agree_on_documented_lists unit named_minimax empty_environment
           (λ _ _, Resolves (json_response (data_body documented_entries)))
           sample_property_key sample_stringify_failure keyed_profile sample_catalogue ()
           (json_response (data_body documented_entries)) (data_body documented_entries)
           documented_entries).
  - reflexivity.
  - reflexivity.
  - reflexivity.
  - reflexivity.
  - reflexivity.
  - reflexivity.
  - reflexivity.
  - discriminate.
  - exact documented_entries_documented.
Defined.

Lemma failures_reported_then_covered_sample :
  loadMiniMaxModelsStrict unit named_minimax empty_environment
    (λ _ _, Resolves server_error) sample_property_key sample_stringify_failure
    keyed_profile ∅ ()
  = ([discovery_request unit empty_environment keyed_profile ()],
     Return {| strict_models := [];
               strict_success := false;
               strict_error :=
                 Some (js "MiniMax models API response failed: 500 Internal Server Error <html><body><h1>Bad   gateway</h1></body></html>") |})
  ∧ ∃ warning,
      loadMiniMaxModels unit named_minimax empty_environment
        (λ _ _, Resolves server_error) keyed_profile ∅ ()
      = ([discovery_request unit empty_environment keyed_profile (); EvWarn warning],
         Return (fallback_response keyed_profile ∅)).
Proof.
  destruct (failures_reported_then_covered unit named_minimax empty_environment
              (λ _ _, Resolves server_error) sample_property_key sample_stringify_failure
              keyed_profile ∅ () eq_refl eq_refl)
    as [Hstatus _].
  apply (Hstatus server_error
           (js "<html><body><h1>Bad   gateway</h1></body></html>")); reflexivity.
Defined.
